(** * Polymarket maker bot (paper trader): decision, settlement and ledger

    A shallow embedding of [bot.py].  Prices and money are Python floats,
    that is IEEE 754 binary64 values: they are modelled by the Standard
    Library's [spec_float] with precision 53 and maximal exponent 1024, so
    every addition, subtraction, multiplication and division rounds as the
    interpreter does.  Wall-clock time is a rational number of seconds.
    The SQLite file is a record of two tables behind a connection that
    separates the committed content from the pending transaction. *)

From Stdlib Require Import ZArith QArith Qround Qabs List Bool Lia SpecFloat.
From stdpp Require Import gmap strings.
Import ListNotations.

Local Open Scope Z_scope.

(** ** Python floats *)

Abbreviation float := spec_float.

Module Float.

Definition prec : Z := 53.
Definition emax : Z := 1024.

Definition add : float -> float -> float := SFadd prec emax.
Definition sub : float -> float -> float := SFsub prec emax.
Definition mul : float -> float -> float := SFmul prec emax.
Definition div : float -> float -> float := SFdiv prec emax.
Definition neg : float -> float := SFopp.
Definition abs : float -> float := SFabs.
Definition ltb : float -> float -> bool := SFltb.
Definition eqb : float -> float -> bool := SFeqb.

(** [x > y] is [y < x]; with a NaN on either side both are [false]. *)
Definition gtb (x y : float) : bool := ltb y x.

Definition zero : float := S754_zero false.

(** An integer literal or an [int] converted to [float] (exact below 2^53,
    rounded to nearest-even above). *)
Definition of_Z (z : Z) : float := binary_normalize prec emax z 0 false.

(** A decimal literal [digits * 10^-places], such as [0.92 = decimal 92 2]:
    the nearest binary64 value, which is what correctly rounded division
    of the two exactly represented integers gives. *)
Definition decimal (digits : Z) (places : Z) : float :=
  div (of_Z digits) (of_Z (10 ^ places)).

Definition is_zero (x : float) : bool :=
  match x with S754_zero _ => true | _ => false end.

(** Rounding of a non-negative fraction [num / den] to the nearest integer,
    ties to the even one. *)
Definition round_half_even (num den : Z) : Z :=
  let q := num / den in
  let r := num mod den in
  match 2 * r ?= den with
  | Lt => q
  | Gt => q + 1
  | Eq => if Z.even q then q else q + 1
  end.

(** [round(x, ndigits)] for [0 <= ndigits]: the exact binary value of [x]
    is rounded half-even to [ndigits] decimals, and the decimal obtained
    is converted back to the nearest float; NaN, infinities and zeros are
    returned unchanged, and the sign is kept when the result is zero. *)
Definition round (x : float) (ndigits : Z) : float :=
  match x with
  | S754_finite s m e =>
      let scale := 10 ^ ndigits in
      let n := match e with
               | Zneg p => round_half_even (Zpos m * scale) (2 ^ Zpos p)
               | _ => Zpos m * scale * 2 ^ e
               end in
      match n with
      | Zpos p => div (S754_finite s p 0) (S754_finite false (Z.to_pos scale) 0)
      | _ => S754_zero s
      end
  | _ => x
  end.

(** Neither NaN nor an infinity. *)
Definition is_finite (x : float) : bool :=
  match x with
  | S754_zero _ | S754_finite _ _ _ => true
  | _ => false
  end.

(** The float nearest to the decimal [n * 10^-places] of a natural [n],
    with the given sign: the correctly rounded quotient of the two
    integers, as [round] computes it. *)
Definition signed_decimal (negative : bool) (n places : Z) : float :=
  match n with
  | Zpos p => div (S754_finite negative p 0) (S754_finite false (Z.to_pos (10 ^ places)) 0)
  | _ => S754_zero negative
  end.

(** The exact value of a finite float, and 0 for the others. *)
Definition to_Q (x : float) : Q :=
  match x with
  | S754_finite s m e =>
      let v := match e with
               | Zneg p => Qmake (Zpos m) (2 ^ p)%positive
               | _ => inject_Z (Zpos m * 2 ^ e)
               end in
      if s then Qopp v else v
  | _ => 0%Q
  end.

End Float.

(** ** Exceptions *)

Inductive exn : Set :=
| ZeroDivisionError
| OperationalError
| IntegrityError
| TypeError
| ValueError.

Inductive result (A : Type) : Type :=
| Ok (a : A)
| Raise (e : exn).
Arguments Ok {A} a.
Arguments Raise {A} e.

(** [x ← r; k] runs [k] on the value of [r] and propagates a raised
    exception. *)
#[export] Instance result_bind : MBind result := fun A B k r =>
  match r with
  | Ok a => k a
  | Raise e => Raise e
  end.

(** Float true division raises on a zero divisor. *)
Definition py_div (x y : float) : result float :=
  if Float.is_zero y then Raise ZeroDivisionError else Ok (Float.div x y).

(** ** Config *)

Record config : Type := {
  WINDOW_SECONDS : Z;
  SIGNAL_OFFSET : Z;
  MIN_MOVE_USD : float;
  ENTRY_PRICE : float;
  ORDER_SIZE_USD : float;
  MAKER_REBATE : float;
  INITIAL_BALANCE : float
}.

(** The constants as the module sets them. *)
Definition default_config : config := {|
  WINDOW_SECONDS := 300;
  SIGNAL_OFFSET := 10;
  MIN_MOVE_USD := Float.of_Z 5;
  ENTRY_PRICE := Float.decimal 92 2;
  ORDER_SIZE_USD := Float.of_Z 10;
  MAKER_REBATE := Float.decimal 5 3;
  INITIAL_BALANCE := Float.of_Z 100
|}.

(** ** Decision and settlement (the body of [market_loop]) *)

(** The strings written to the [direction_bet] and [outcome] columns. *)
Inductive direction : Set := UP | DOWN | NONE.
Inductive settlement : Set := WIN | LOSS | SKIP.

Definition direction_eqb (a b : direction) : bool :=
  match a, b with
  | UP, UP | DOWN, DOWN | NONE, NONE => true
  | _, _ => false
  end.

Definition settlement_eqb (a b : settlement) : bool :=
  match a, b with
  | WIN, WIN | LOSS, LOSS | SKIP, SKIP => true
  | _, _ => false
  end.

(** [move = btc_at_signal - btc_open] *)
Definition move (btc_open btc_at_signal : float) : float :=
  Float.sub btc_at_signal btc_open.

(** The decision of lines 155-179: [NONE] is the skipped window, which is
    recorded with [direction_bet = "NONE"] and [outcome = "SKIP"]. *)
Definition decide (btc_open btc_at_signal min_move : float) : direction :=
  let mv := move btc_open btc_at_signal in
  if Float.ltb (Float.abs mv) min_move then NONE
  else if Float.gtb mv Float.zero then UP else DOWN.

(** The outcome of a bet, lines 189-197. *)
Definition settle_outcome (dir : direction) (btc_open btc_close : float) : settlement :=
  let actual := if Float.gtb btc_close btc_open then UP else DOWN in
  if Float.eqb btc_close btc_open then LOSS
  else if direction_eqb actual dir then WIN
  else LOSS.

(** The payoff of a bet, lines 199-203, with [shares] from line 180. *)
Definition settle_pnl (cfg : config) (shares : float) (out : settlement) : float :=
  if settlement_eqb out WIN then
    let profit := Float.add (Float.mul shares (Float.sub (Float.of_Z 1) (ENTRY_PRICE cfg))) (MAKER_REBATE cfg) in
    Float.round profit 4
  else
    Float.round (Float.add (Float.neg (ORDER_SIZE_USD cfg)) (MAKER_REBATE cfg)) 4.

(** ** Database *)

(** A row of [trades].  The three time columns hold the epoch value that
    [fmt_ts] prints; the [id] column is the position in the table. *)
Record trade : Type := {
  timestamp : Q;
  window_start : Q;
  window_end : Q;
  btc_open : float;
  btc_at_signal : float;
  btc_close : float;
  direction_bet : direction;
  entry_price : float;
  outcome : settlement;
  pnl : float;
  balance_after : float
}.

(** The content of the file: a table is [None] until it is created.  The
    [state] table maps its primary key to the value; the value is kept as
    the float whose [str] the code stores and whose [float] it reads back. *)
Record database : Type := {
  trades : option (list trade);
  state : option (gmap string float)
}.

Definition empty_file : database := {| trades := None; state := None |}.

(** A connection: the committed content of the file, and the view of the
    open transaction when there is one. *)
Record connection : Type := {
  file : database;
  transaction : option database
}.

Definition connect (f : database) : connection :=
  {| file := f; transaction := None |}.

(** What the statements of this connection read. *)
Definition view (con : connection) : database :=
  match transaction con with
  | Some v => v
  | None => file con
  end.

(** What a process that opens the file afterwards finds, whatever was
    pending. *)
Definition crash (con : connection) : database := file con.

Inductive statement : Type :=
| CREATE_TABLE_trades
| CREATE_TABLE_state
| INSERT_state_balance (value : float)
| UPDATE_state_balance (value : float)
| INSERT_trade (row : trade).

Definition is_ddl (s : statement) : bool :=
  match s with
  | CREATE_TABLE_trades | CREATE_TABLE_state => true
  | _ => false
  end.

Definition apply_statement (s : statement) (d : database) : result database :=
  match s with
  | CREATE_TABLE_trades =>
      Ok {| trades := Some (default [] (trades d)); state := state d |}
  | CREATE_TABLE_state =>
      Ok {| trades := trades d; state := Some (default ∅ (state d)) |}
  | INSERT_state_balance v =>
      match state d with
      | None => Raise OperationalError
      | Some m =>
          match m !! "balance"%string with
          | Some _ => Raise IntegrityError
          | None => Ok {| trades := trades d; state := Some (<["balance"%string := v]> m) |}
          end
      end
  | UPDATE_state_balance v =>
      match state d with
      | None => Raise OperationalError
      | Some m => Ok {| trades := trades d; state := Some (alter (fun _ => v) "balance"%string m) |}
      end
  | INSERT_trade row =>
      match trades d with
      | None => Raise OperationalError
      | Some rows => Ok {| trades := Some (rows ++ [row]); state := state d |}
      end
  end.

(** [con.execute(s)]: an INSERT or UPDATE opens a transaction when none is
    open and changes its view only; a CREATE TABLE outside a transaction
    takes effect on the file at once. *)
Definition execute (s : statement) (con : connection) : result connection :=
  match transaction con with
  | Some v =>
      v' ← apply_statement s v;
      Ok {| file := file con; transaction := Some v' |}
  | None =>
      d ← apply_statement s (file con);
      if is_ddl s then Ok {| file := d; transaction := None |}
      else Ok {| file := file con; transaction := Some d |}
  end.

(** [con.commit()] *)
Definition commit (con : connection) : connection :=
  {| file := view con; transaction := None |}.

(** [con.execute("SELECT value FROM state WHERE key='balance'").fetchone()] *)
Definition select_balance (con : connection) : result (option float) :=
  match state (view con) with
  | None => Raise OperationalError
  | Some m => Ok (m !! "balance"%string)
  end.

Inductive action : Type :=
| Execute (s : statement)
| Commit.

Definition run_action (a : action) (con : connection) : result connection :=
  match a with
  | Execute s => execute s con
  | Commit => Ok (commit con)
  end.

Fixpoint run_script (script : list action) (con : connection) : result connection :=
  match script with
  | [] => Ok con
  | a :: rest => con' ← run_action a con; run_script rest con'
  end.

Definition init_db (cfg : config) (f : database) : result connection :=
  let con := connect f in
  con ← execute CREATE_TABLE_trades con;
  con ← execute CREATE_TABLE_state con;
  cur ← select_balance con;
  con ← match cur with
        | None => execute (INSERT_state_balance (INITIAL_BALANCE cfg)) con
        | Some _ => Ok con
        end;
  Ok (commit con).

Definition get_balance (con : connection) : result float :=
  row ← select_balance con;
  match row with
  | Some value => Ok value
  | None => Raise TypeError
  end.

Definition set_balance_script (bal : float) : list action :=
  [Execute (UPDATE_state_balance bal); Commit].

Definition set_balance (con : connection) (bal : float) : result connection :=
  run_script (set_balance_script bal) con.

Definition record_trade_script (row : trade) : list action :=
  [Execute (INSERT_trade row); Commit].

Definition record_trade (con : connection) (row : trade) : result connection :=
  run_script (record_trade_script row) con.

(** ** Helpers *)

(** [x % w] on a float [x] and an integer [w]: the remainder has the sign
    of [w], and a zero [w] raises.  The remainder of a binary64 value is
    exact, and so are the subtraction and the addition of
    [next_window_start] on epoch times, which is why time is kept as an
    exact rational. *)
Definition py_mod (x : Q) (w : Z) : result Q :=
  if w =? 0 then Raise ZeroDivisionError
  else Ok (x - inject_Z w * inject_Z (Qfloor (x / inject_Z w)))%Q.

(** [next_window_start()], with the value of [time.time()] as argument. *)
Definition next_window_start (cfg : config) (now : Q) : result Q :=
  r ← py_mod now (WINDOW_SECONDS cfg);
  Ok (now - r + inject_Z (WINDOW_SECONDS cfg))%Q.

(** ** Main loop *)

(** What one iteration of [market_loop] reads from outside: the clock when
    it computes the window, [latest_price] at the open, at the signal and
    at the close, and the clock when it writes the row.  Which of the
    prices can differ depends on the sleeps between the reads:
    [sample_window_feed] below derives the five values from the clock and
    from the sleeps of an iteration. *)
Record window_feed : Type := {
  clock_at_top : Q;
  price_at_open : float;
  price_at_signal : float;
  price_at_close : float;
  clock_at_record : Q
}.

(** The state of [run]: the connection and the [nonlocal balance]. *)
Record bot : Type := {
  con : connection;
  balance : float
}.

Definition window_end_epoch (cfg : config) (ws_epoch : Q) : Q :=
  (ws_epoch + inject_Z (WINDOW_SECONDS cfg))%Q.

Definition signal_time (cfg : config) (ws_epoch : Q) : Q :=
  (window_end_epoch cfg ws_epoch - inject_Z (SIGNAL_OFFSET cfg))%Q.

(** The row of a skipped window, lines 160-172. *)
Definition skip_row (cfg : config) (w : window_feed) (ws_epoch : Q) (bal : float) : trade := {|
  timestamp := clock_at_record w;
  window_start := ws_epoch;
  window_end := window_end_epoch cfg ws_epoch;
  btc_open := price_at_open w;
  btc_at_signal := price_at_signal w;
  btc_close := price_at_signal w;
  direction_bet := NONE;
  entry_price := Float.of_Z 0;
  outcome := SKIP;
  pnl := Float.of_Z 0;
  balance_after := bal
|}.

(** The row of a settled bet, lines 211-223. *)
Definition bet_row (cfg : config) (w : window_feed) (ws_epoch : Q)
    (dir : direction) (out : settlement) (profit bal : float) : trade := {|
  timestamp := clock_at_record w;
  window_start := ws_epoch;
  window_end := window_end_epoch cfg ws_epoch;
  btc_open := price_at_open w;
  btc_at_signal := price_at_signal w;
  btc_close := price_at_close w;
  direction_bet := dir;
  entry_price := ENTRY_PRICE cfg;
  outcome := out;
  pnl := profit;
  balance_after := bal
|}.

(** The body of the [while True] of [market_loop], lines 136-223, on the
    values one iteration samples.  It is written once, over any type [C] of
    connections with the two writers it calls and over the check that a
    time can be formatted, so that the same text is run on the connection,
    by [market_loop_body], and on a process that is stopped between two
    database calls, by [market_loop_body_stopped]. *)
Section Body.

Context {C : Type}.
Variable set_balance_on : C -> float -> result C.
Variable record_trade_on : C -> trade -> result C.
Variable fmt : Q -> result Q.

Definition market_loop_body_on (cfg : config) (w : window_feed) (c : C) (bal0 : float)
    : result (C * float) :=
  ws_epoch ← next_window_start cfg (clock_at_top w);
  match decide (price_at_open w) (price_at_signal w) (MIN_MOVE_USD cfg) with
  | NONE =>
      _ ← fmt (clock_at_record w);
      _ ← fmt ws_epoch;
      _ ← fmt (window_end_epoch cfg ws_epoch);
      c' ← record_trade_on c (skip_row cfg w ws_epoch bal0);
      Ok (c', bal0)
  | dir =>
      shares ← py_div (ORDER_SIZE_USD cfg) (ENTRY_PRICE cfg);
      let out := settle_outcome dir (price_at_open w) (price_at_close w) in
      let profit := settle_pnl cfg shares out in
      let bal := Float.round (Float.add bal0 profit) 4 in
      c1 ← set_balance_on c bal;
      _ ← fmt (clock_at_record w);
      _ ← fmt ws_epoch;
      _ ← fmt (window_end_epoch cfg ws_epoch);
      c2 ← record_trade_on c1 (bet_row cfg w ws_epoch dir out profit bal);
      Ok (c2, bal)
  end.

End Body.

(** One iteration on the connection, for times that can all be formatted
    (the rows keep the epoch values). *)
Definition market_loop_body (cfg : config) (w : window_feed) (st : bot) : result bot :=
  r ← market_loop_body_on set_balance record_trade Ok cfg w (con st) (balance st);
  Ok {| con := r.1; balance := r.2 |}.

(** The first iterations of [market_loop], one per element of the feed. *)
Fixpoint market_loop (cfg : config) (feed : list window_feed) (st : bot) : result bot :=
  match feed with
  | [] => Ok st
  | w :: rest => st' ← market_loop_body cfg w st; market_loop cfg rest st'
  end.

(** The start of [run], lines 108-109, on the content of [DB_PATH]. *)
Definition run_startup (cfg : config) (f : database) : result bot :=
  con0 ← init_db cfg f;
  bal ← get_balance con0;
  Ok {| con := con0; balance := bal |}.

(** [run] up to the end of the feed. *)
Definition run (cfg : config) (f : database) (feed : list window_feed) : result bot :=
  st ← run_startup cfg f;
  market_loop cfg feed st.

(** ** The iteration with its clock reads and its sleeps *)

(** A process that is stopped after a number of further database calls:
    the calls it still makes reach the connection, the others do not. *)
Record process : Type := {
  running : connection;
  calls_left : nat
}.

Definition run_script_stoppable (script : list action) (p : process) : result process :=
  c ← run_script (take (calls_left p) script) (running p);
  Ok {| running := c; calls_left := calls_left p - length script |}.

(** The file a process leaves when it is stopped after [k] database calls
    of one iteration. *)
Definition market_loop_body_stopped
    (k : nat) (cfg : config) (w : window_feed) (st : bot) : result database :=
  r ← market_loop_body_on
         (fun p bal => run_script_stoppable (set_balance_script bal) p)
         (fun p row => run_script_stoppable (record_trade_script row) p)
         Ok cfg w {| running := con st; calls_left := k |} (balance st);
  Ok (crash (running r.1)).

(** Rounding of a rational to the nearest integer, ties to the even one. *)
Definition Qround_half_even (q : Q) : Z :=
  let f := Qfloor q in
  match (2 * (q - inject_Z f) ?= 1)%Q with
  | Lt => f
  | Gt => f + 1
  | Eq => if Z.even f then f else f + 1
  end.

(** Whether [datetime.fromtimestamp(epoch, tz=utc)] accepts the time: it
    rounds it to microseconds and needs a year from 1 to 9999. *)
Definition formattable (epoch : Q) : bool :=
  let us := Qround_half_even (epoch * 1000000) in
  (-62135596800000000 <=? us) && (us <? 253402300800000000).

(** [fmt_ts(epoch)]: the text printed is not modelled, the time is returned
    as it is.  Outside the years 1 to 9999 [datetime.fromtimestamp] raises:
    [ValueError] for a year out of that range, which is what the model
    returns; beyond some 6.7e16 seconds CPython reports the failure as an
    [OSError] or an [OverflowError] instead, and the properties that name
    the exception stay below that bound. *)
Definition fmt_ts (epoch : Q) : result Q :=
  if formattable epoch then Ok epoch else Raise ValueError.

(** What one iteration of [market_loop] meets: the clock at each
    [time.time()], and for each [await asyncio.sleep] the last price
    [price_feed] sets while the loop sleeps, if it sets one.  The clock
    fields are those of lines 98, 138 and 150, of line 174 or 184, and of
    line 161 or 212. *)
Record window_env : Type := {
  clock_next_window : Q;
  clock_wait : Q;
  tick_wait : option float;
  clock_wait_signal : Q;
  tick_wait_signal : option float;
  clock_remaining : Q;
  tick_remaining : option float;
  clock_timestamp : Q
}.

(** [if wait > 0: await asyncio.sleep(wait)] seen from [latest_price]:
    without the sleep nothing else runs and the price is the one before. *)
Definition after_sleep (wait : Q) (tick : option float) (latest_price : float) : float :=
  if Qle_bool wait 0 then latest_price else default latest_price tick.

(** The values an iteration samples, lines 137-154 and 174-188, and
    [latest_price] at its end.  The close is read after the last sleep in
    a bet; a skipped window sleeps as well, after its row is written. *)
Definition sample_window_feed
    (cfg : config) (env : window_env) (ws_epoch : Q) (latest_price : float)
    : window_feed * float :=
  let wait := (ws_epoch - clock_wait env)%Q in
  let latest1 := after_sleep wait (tick_wait env) latest_price in
  let btc_open := latest1 in
  let wait_signal := (signal_time cfg ws_epoch - clock_wait_signal env)%Q in
  let latest2 := after_sleep wait_signal (tick_wait_signal env) latest1 in
  let btc_at_signal := latest2 in
  let remaining := (window_end_epoch cfg ws_epoch - clock_remaining env)%Q in
  let latest3 := after_sleep remaining (tick_remaining env) latest2 in
  ({| clock_at_top := clock_next_window env;
      price_at_open := btc_open;
      price_at_signal := btc_at_signal;
      price_at_close := latest3;
      clock_at_record := clock_timestamp env |},
   latest3).

(** One iteration of [market_loop], lines 136-223, from the clock and the
    price feed: the state it leaves and [latest_price] at its end. *)
Definition market_loop_iteration
    (cfg : config) (env : window_env) (st : bot) (latest_price : float)
    : result (bot * float) :=
  ws_epoch ← next_window_start cfg (clock_next_window env);
  _ ← (if Qle_bool (ws_epoch - clock_wait env) 0 then Ok ws_epoch else fmt_ts ws_epoch);
  let sampled := sample_window_feed cfg env ws_epoch latest_price in
  r ← market_loop_body_on set_balance record_trade fmt_ts cfg sampled.1
         (con st) (balance st);
  Ok ({| con := r.1; balance := r.2 |}, sampled.2).

(** The first iterations of [market_loop], one per element of the list. *)
Fixpoint market_loop_timed
    (cfg : config) (envs : list window_env) (st : bot) (latest_price : float)
    : result (bot * float) :=
  match envs with
  | [] => Ok (st, latest_price)
  | env :: rest =>
      r ← market_loop_iteration cfg env st latest_price;
      market_loop_timed cfg rest r.1 r.2
  end.

(** ** Notions the properties are stated with *)

(** The value of the [balance] row of [state], if the table and the row
    exist. *)
Definition stored_balance (d : database) : option float :=
  match state d with
  | Some m => m !! "balance"%string
  | None => None
  end.

(** Both tables exist and no transaction is open, as after [init_db]. *)
Definition ready (c : connection) : bool :=
  match transaction c, trades (file c), state (file c) with
  | None, Some _, Some _ => true
  | _, _, _ => false
  end.

(** The loop can run: the modulo and the division do not raise. *)
Definition runnable (cfg : config) : bool :=
  negb (WINDOW_SECONDS cfg =? 0) && negb (Float.is_zero (ENTRY_PRICE cfg)).

(** The file once the UPDATE of [set_balance] is committed. *)
Definition with_balance (bal : float) (d : database) : database :=
  {| trades := trades d;
     state := alter (fun _ => bal) "balance"%string <$> state d |}.

(** The file once the INSERT of [record_trade] is committed. *)
Definition with_trade (row : trade) (d : database) : database :=
  {| trades := (fun rows => rows ++ [row]) <$> trades d;
     state := state d |}.

(** The database calls of a settled bet, lines 206 and 211, in order. *)
Definition settlement_script (bal : float) (row : trade) : list action :=
  set_balance_script bal ++ record_trade_script row.

(** The content of the file when the process stops after the first [k]
    database calls of a script. *)
Definition interrupted (k : nat) (script : list action) (c : connection) : result database :=
  c' ← run_script (take k script) c;
  Ok (crash c').

(** [y] is [x] rounded to [places] decimals: for a finite [x], the float
    nearest to the decimal [n * 10^-places] with the sign of [x], where the
    natural [n] is at most one half away from [|x| * 10^places] and is even
    when it is exactly one half away; any other [x] is kept. *)
Definition rounded_to (places : Z) (x y : float) : Prop :=
  match x with
  | S754_finite s _ _ =>
      exists n : Z,
        0 <= n /\
        (Qabs (Float.to_Q (Float.abs x) * inject_Z (10 ^ places) - inject_Z n) <= 1 # 2)%Q /\
        ((Qabs (Float.to_Q (Float.abs x) * inject_Z (10 ^ places) - inject_Z n) == 1 # 2)%Q ->
         Z.even n = true) /\
        y = Float.signed_decimal s n places
  | _ => y = x
  end.

(** The in-memory balance is the stored one, on a ready connection. *)
Definition synced (st : bot) : Prop :=
  ready (con st) = true /\ stored_balance (file (con st)) = Some (balance st).

(** The new balance, payoff and row of a bet window. *)
Definition bet_pnl (cfg : config) (w : window_feed) (dir : direction) : float :=
  settle_pnl cfg (Float.div (ORDER_SIZE_USD cfg) (ENTRY_PRICE cfg))
    (settle_outcome dir (price_at_open w) (price_at_close w)).

Definition bet_balance (cfg : config) (w : window_feed) (dir : direction) (bal : float) : float :=
  Float.round (Float.add bal (bet_pnl cfg w dir)) 4.

(** How a recorded row moves the balance: a skip leaves it, a bet adds the
    payoff and rounds the sum to 4 decimals (line 205). *)
Definition ledger_step (bal : float) (row : trade) : float :=
  match outcome row with
  | SKIP => bal
  | _ => Float.round (Float.add bal (pnl row)) 4
  end.

(** Every row carries the balance its predecessor left, moved by its own
    payoff, and a skip row has payoff 0. *)
Fixpoint chained (bal : float) (rows : list trade) : Prop :=
  match rows with
  | [] => True
  | row :: rest =>
      balance_after row = ledger_step bal row /\
      (outcome row = SKIP -> pnl row = Float.of_Z 0) /\
      chained (balance_after row) rest
  end.

(** The float sum [0 + pnl_1 + ... + pnl_n] of a record sequence. *)
Definition sum_pnl (rows : list trade) : float :=
  fold_left (fun acc row => Float.add acc (pnl row)) rows (Float.of_Z 0).

(** ** Sample inputs *)

Definition sample_window (signal close : Z) : window_feed := {|
  clock_at_top := 1700000123;
  price_at_open := Float.of_Z 50000;
  price_at_signal := Float.of_Z signal;
  price_at_close := Float.of_Z close;
  clock_at_record := 1700000700
|}.

(** Scenario 1: open 50000, signal 50010, close 50050. *)
Definition winning_window : window_feed := sample_window 50010 50050.

(** A bet UP that closes below the open. *)
Definition losing_window : window_feed := sample_window 50010 49990.

(** Scenario 3: open 50000, signal 50002. *)
Definition skipped_window : window_feed := sample_window 50002 50002.

(** Scenario 2: open 50000, signal 49990, close 50000 (flat). *)
Definition flat_window : window_feed := sample_window 49990 50000.

(** The state of [run] after its start on a file that did not exist. *)
Definition fresh_bot : bot := {|
  con := {| file := {| trades := Some [];
                       state := Some {[ "balance"%string := Float.of_Z 100 ]} |};
            transaction := None |};
  balance := Float.of_Z 100
|}.

(** A window that opens at 1700000400 for a loop that wakes on time under
    the default constants: the price is 50000 when the window opens and
    the feed moves it during the sleep before the signal and during the
    sleep before the close. *)
Definition timely_env (signal close : Z) : window_env := {|
  clock_next_window := 1700000123;
  clock_wait := 1700000123;
  tick_wait := Some (Float.of_Z 50000);
  clock_wait_signal := 1700000400;
  tick_wait_signal := Some (Float.of_Z signal);
  clock_remaining := 1700000690;
  tick_remaining := Some (Float.of_Z close);
  clock_timestamp := 1700000700
|}.

(** The same window for a loop whose signal instant is the window start:
    every clock read after the first sleep is 1700000400, and the feed
    holds the price 50010 for the sleep before the signal. *)
Definition degenerate_env : window_env := {|
  clock_next_window := 1700000123;
  clock_wait := 1700000123;
  tick_wait := Some (Float.of_Z 50000);
  clock_wait_signal := 1700000400;
  tick_wait_signal := Some (Float.of_Z 50010);
  clock_remaining := 1700000400;
  tick_remaining := Some (Float.of_Z 50050);
  clock_timestamp := 1700000400
|}.

(** The iteration after [timely_env 50010 50050] for a loop that comes
    back to its top at 1700000700, the end of the window it has handled. *)
Definition following_env : window_env := {|
  clock_next_window := 1700000700;
  clock_wait := 1700000700;
  tick_wait := Some (Float.of_Z 50060);
  clock_wait_signal := 1700001000;
  tick_wait_signal := Some (Float.of_Z 50062);
  clock_remaining := 1700001290;
  tick_remaining := Some (Float.of_Z 50070);
  clock_timestamp := 1700001290
|}.

(** A configuration with another signal offset. *)
Definition set_signal_offset (off : Z) (cfg : config) : config := {|
  WINDOW_SECONDS := WINDOW_SECONDS cfg;
  SIGNAL_OFFSET := off;
  MIN_MOVE_USD := MIN_MOVE_USD cfg;
  ENTRY_PRICE := ENTRY_PRICE cfg;
  ORDER_SIZE_USD := ORDER_SIZE_USD cfg;
  MAKER_REBATE := MAKER_REBATE cfg;
  INITIAL_BALANCE := INITIAL_BALANCE cfg
|}.

(** The default constants with an initial balance of 100.00005. *)
Definition fine_balance_config : config := {|
  WINDOW_SECONDS := 300;
  SIGNAL_OFFSET := 10;
  MIN_MOVE_USD := Float.of_Z 5;
  ENTRY_PRICE := Float.decimal 92 2;
  ORDER_SIZE_USD := Float.of_Z 10;
  MAKER_REBATE := Float.decimal 5 3;
  INITIAL_BALANCE := Float.decimal 10000005 5
|}.

(** The default constants with the signal offset as long as the window. *)
Definition degenerate_config : config := set_signal_offset 300 default_config.

(** The default constants with a window of 10^12 seconds, whose first
    start after 1700000123 is in the year 33658. *)
Definition long_window_config : config := {|
  WINDOW_SECONDS := 1000000000000;
  SIGNAL_OFFSET := 10;
  MIN_MOVE_USD := Float.of_Z 5;
  ENTRY_PRICE := Float.decimal 92 2;
  ORDER_SIZE_USD := Float.of_Z 10;
  MAKER_REBATE := Float.decimal 5 3;
  INITIAL_BALANCE := Float.of_Z 100
|}.

(** ** Rows the loop writes *)

(** The row of an iteration carries the window computed from the clock at
    the top of that iteration. *)
Definition window_of (cfg : config) (env : window_env) (row : trade) : Prop :=
  next_window_start cfg (clock_next_window env) = Ok (window_start row) /\
  window_end row = window_end_epoch cfg (window_start row).

(** The payoff the loop records for a winning and for a losing bet. *)
Definition win_payoff (cfg : config) : float :=
  settle_pnl cfg (Float.div (ORDER_SIZE_USD cfg) (ENTRY_PRICE cfg)) WIN.

Definition loss_payoff (cfg : config) : float :=
  settle_pnl cfg (Float.div (ORDER_SIZE_USD cfg) (ENTRY_PRICE cfg)) LOSS.

(** The shape of a row of [market_loop]: the window is one grid cell, a
    skip row has no direction, no entry price, no payoff and the signal
    price as close, and a bet row has a direction, the entry price and the
    payoff of its outcome, which is the outcome of its own prices. *)
Definition row_shape (cfg : config) (row : trade) : Prop :=
  (window_end row == window_start row + inject_Z (WINDOW_SECONDS cfg))%Q /\
  (exists k : Z, (window_start row == inject_Z (k * WINDOW_SECONDS cfg))%Q) /\
  match outcome row with
  | SKIP =>
      direction_bet row = NONE /\
      entry_price row = Float.of_Z 0 /\
      pnl row = Float.of_Z 0 /\
      btc_close row = btc_at_signal row
  | out =>
      (direction_bet row = UP \/ direction_bet row = DOWN) /\
      entry_price row = ENTRY_PRICE cfg /\
      pnl row = (if settlement_eqb out WIN then win_payoff cfg else loss_payoff cfg) /\
      settle_outcome (direction_bet row) (btc_open row) (btc_close row) = out
  end /\
  direction_bet row = decide (btc_open row) (btc_at_signal row) (MIN_MOVE_USD cfg).

(** Whether the loop skips the window: the decision on its prices is
    NONE. *)
Definition skipped (cfg : config) (w : window_feed) : bool :=
  direction_eqb (decide (price_at_open w) (price_at_signal w) (MIN_MOVE_USD cfg)) NONE.

(** The number of windows of a feed the loop skips, and the number it
    bets on. *)
Definition count_skipped (cfg : config) (feed : list window_feed) : Z :=
  Z.of_nat (length (List.filter (skipped cfg) feed)).

Definition count_bet (cfg : config) (feed : list window_feed) : Z :=
  Z.of_nat (length (List.filter (fun w => negb (skipped cfg w)) feed)).

(** ** The dashboard ([dashboard.py]) *)

Module Dashboard.

Definition WINDOW_SECONDS : Z := 300.

(** An [int] as the exact operand of a true division. *)
Definition int_operand (z : Z) : float :=
  match z with
  | Z0 => S754_zero false
  | Zpos p => S754_finite false p 0
  | Zneg p => S754_finite true p 0
  end.

(** [a / b] on two [int]s: the correctly rounded quotient, and a raise on
    a zero divisor. *)
Definition int_truediv (a b : Z) : result float :=
  if b =? 0 then Raise ZeroDivisionError
  else Ok (Float.div (int_operand a) (int_operand b)).

(** [int(x)]: truncation towards zero. *)
Definition py_int (x : Q) : Z := Z.quot (Qnum x) (Zpos (Qden x)).

(** The dictionary [get_stats] returns. *)
Record stats : Type := {
  balance : float;
  total : Z;
  wins : Z;
  losses : Z;
  skips : Z;
  bets : Z;
  win_rate : float;
  total_pnl : float
}.

(** [SUM(CASE WHEN outcome = o THEN 1 ELSE 0 END)], with the [or 0] that
    replaces the NULL of an empty table. *)
Definition count_outcome (o : settlement) (rows : list trade) : Z :=
  Z.of_nat (length (List.filter (fun r => settlement_eqb (outcome r) o) rows)).

Section Stats.

(** The SUM aggregate of the SQLite engine on a non-empty column of
    reals. *)
Variable sqlite_sum : list float -> float.

Definition get_stats (con : connection) : result stats :=
  row ← select_balance con;
  let balance := match row with
                 | Some value => value
                 | None => Float.of_Z 100
                 end in
  match trades (view con) with
  | None => Raise OperationalError
  | Some rows =>
      let total := Z.of_nat (length rows) in
      let wins := count_outcome WIN rows in
      let losses := count_outcome LOSS rows in
      let skips := count_outcome SKIP rows in
      let total_pnl := match rows with
                       | [] => Float.of_Z 0
                       | _ => sqlite_sum (map pnl rows)
                       end in
      let bets := wins + losses in
      win_rate ← (if 0 <? bets
                  then q ← int_truediv wins bets; Ok (Float.mul q (Float.of_Z 100))
                  else Ok (Float.of_Z 0));
      Ok {| balance := balance; total := total; wins := wins; losses := losses;
            skips := skips; bets := bets; win_rate := win_rate;
            total_pnl := total_pnl |}
  end.

End Stats.

(** The columns [get_recent_trades] selects. *)
Definition recent_columns (row : trade)
    : Q * direction * float * float * settlement * float * float :=
  (timestamp row, direction_bet row, btc_open row, btc_close row,
   outcome row, pnl row, balance_after row).

(** [ORDER BY id DESC LIMIT n]: the newest rows first; a negative limit
    is no limit. *)
Definition get_recent_trades (con : connection) (n : Z)
    : result (list (Q * direction * float * float * settlement * float * float)) :=
  match trades (view con) with
  | None => Raise OperationalError
  | Some rows =>
      let newest_first := reverse rows in
      Ok (recent_columns
            <$> (if n <? 0 then newest_first else take (Z.to_nat n) newest_first))
  end.

(** A cell of the progress bar: a full block or a light shade. *)
Inductive cell : Set := Full | Shade.

(** The window status of [build_display], lines 71-83. *)
Record window_status : Type := {
  window_start : Q;
  window_end : Q;
  elapsed : Q;
  remaining : Q;
  filled : Z;
  bar : list cell;
  signal_zone : bool
}.

Definition build_window_status (now : Q) : result window_status :=
  r ← py_mod now WINDOW_SECONDS;
  let window_start := (now - r)%Q in
  let window_end := (window_start + inject_Z WINDOW_SECONDS)%Q in
  let elapsed := (now - window_start)%Q in
  let remaining := (window_end - now)%Q in
  let bar_len := 30 in
  let filled := py_int (elapsed / inject_Z WINDOW_SECONDS * inject_Z bar_len)%Q in
  let bar := repeat Full (Z.to_nat filled) ++ repeat Shade (Z.to_nat (bar_len - filled)) in
  Ok {| window_start := window_start; window_end := window_end;
        elapsed := elapsed; remaining := remaining;
        filled := filled; bar := bar;
        signal_zone := Qle_bool remaining 10 |}.

End Dashboard.

(** * Properties *)

(** ** Python floats: known values *)

(** [0.1 + 0.2 != 0.3], and [round(0.1 + 0.2, 4) == 0.3]. *)
Example add_is_rounded :
  Float.eqb (Float.add (Float.decimal 1 1) (Float.decimal 2 1)) (Float.decimal 3 1) = false /\
  Float.round (Float.add (Float.decimal 1 1) (Float.decimal 2 1)) 4 = Float.decimal 3 1.
Proof. split; reflexivity. Qed.

(** [round(2.675, 2) == 2.67] (the float is below the tie),
    [round(0.125, 2) == 0.12] and [round(2.5, 0) == 2.0] (exact ties go to
    the even digit), [round(-0.00001, 4) == -0.0]. *)
Example round_known_values :
  Float.round (Float.decimal 2675 3) 2 = Float.decimal 267 2 /\
  Float.round (Float.decimal 125 3) 2 = Float.decimal 12 2 /\
  Float.round (Float.decimal 25 1) 0 = Float.of_Z 2 /\
  Float.round (Float.decimal (-1) 5) 4 = S754_zero true.
Proof. repeat split; reflexivity. Qed.

(** [10 / 0.92 == 10.869565217391305 == 0x1.5bd37a6f4de9cp+3]. *)
Example shares_default :
  py_div (ORDER_SIZE_USD default_config) (ENTRY_PRICE default_config)
  = Ok (S754_finite false 0x15bd37a6f4de9c (-49)).
Proof. reflexivity. Qed.

(** ** The database calls *)

Section Database.

Lemma run_script_app (s1 s2 : list action) (c : connection) :
  run_script (s1 ++ s2) c = c' ← run_script s1 c; run_script s2 c'.
Proof.
  revert c. induction s1 as [|a s1 IH]; intros c; simpl; [reflexivity|].
  destruct (run_action a c) as [c'|e]; simpl; [apply IH|reflexivity].
Qed.

Lemma ready_shape (c : connection) :
  ready c = true ->
  exists rows m,
    c = {| file := {| trades := Some rows; state := Some m |}; transaction := None |}.
Proof.
  destruct c as [[[rows|] [m|]] [v|]]; simpl; try discriminate.
  intros _. exists rows, m. reflexivity.
Qed.

Lemma set_balance_ready (rows : list trade) (m : gmap string float) (bal : float) :
  set_balance {| file := {| trades := Some rows; state := Some m |}; transaction := None |} bal
  = Ok {| file := {| trades := Some rows;
                     state := Some (alter (fun _ => bal) "balance"%string m) |};
          transaction := None |}.
Proof. reflexivity. Qed.

Lemma record_trade_ready (rows : list trade) (m : gmap string float) (row : trade) :
  record_trade {| file := {| trades := Some rows; state := Some m |}; transaction := None |} row
  = Ok {| file := {| trades := Some (rows ++ [row]); state := Some m |};
          transaction := None |}.
Proof. reflexivity. Qed.

Lemma settlement_script_runs (c : connection) (bal : float) (row : trade) :
  run_script (settlement_script bal row) c
  = c1 ← set_balance c bal; record_trade c1 row.
Proof. unfold settlement_script. apply run_script_app. Qed.

End Database.

(** ** The decision *)

Section Decision.

Lemma ltb_zero_asym (x : float) :
  Float.ltb x Float.zero = true -> Float.gtb x Float.zero = false.
Proof. destruct x as [s|s| |s m e]; try destruct s; cbv; congruence. Qed.

Lemma eqb_zero_is_zero (x : float) :
  Float.eqb x Float.zero = true -> Float.is_zero x = true.
Proof. destruct x as [s|s| |s m e]; try destruct s; cbv; congruence. Qed.

Lemma abs_zero_not_below_zero (x m : float) :
  Float.is_zero x = true -> Float.is_zero m = true ->
  Float.ltb (Float.abs x) m = false.
Proof. destruct x, m; cbv; congruence. Qed.

Lemma zero_not_above_zero (x : float) :
  Float.is_zero x = true -> Float.gtb x Float.zero = false.
Proof. destruct x; cbv; congruence. Qed.

Lemma abs_zero_below_positive (x m : float) :
  Float.is_zero x = true -> Float.gtb m Float.zero = true ->
  Float.ltb (Float.abs x) m = true.
Proof. destruct x; cbv; congruence. Qed.

End Decision.

(** C2 (as stated, refuted): with the threshold configured to 0 and the
    signal price equal to the open price, the move is 0 and the decision is
    DOWN, a bet, not the skip. *)
Lemma decide_zero_move_zero_threshold_bets_down :
  let p := Float.of_Z 50000 in
  Float.eqb p p = true /\
  Float.eqb (move p p) Float.zero = true /\
  decide p p Float.zero = DOWN /\
  decide p p Float.zero <> NONE.
Proof. vm_compute. repeat split; discriminate. Qed.

(** C2 (amended): the decision is a function of the open price, the signal
    price and the threshold.  It is the skip whenever [|move| < min_move];
    otherwise it is UP when [move > 0] and DOWN when [move < 0].  A zero
    move is the skip for every positive threshold, and it is DOWN (the
    [else] of the direction test) when the threshold is 0. *)
Theorem decide_spec (btc_open btc_at_signal min_move : float) :
  let mv := move btc_open btc_at_signal in
  (Float.ltb (Float.abs mv) min_move = true ->
     decide btc_open btc_at_signal min_move = NONE) /\
  (Float.ltb (Float.abs mv) min_move = false -> Float.gtb mv Float.zero = true ->
     decide btc_open btc_at_signal min_move = UP) /\
  (Float.ltb (Float.abs mv) min_move = false -> Float.ltb mv Float.zero = true ->
     decide btc_open btc_at_signal min_move = DOWN) /\
  (Float.eqb mv Float.zero = true -> Float.gtb min_move Float.zero = true ->
     decide btc_open btc_at_signal min_move = NONE) /\
  (Float.eqb mv Float.zero = true -> Float.is_zero min_move = true ->
     decide btc_open btc_at_signal min_move = DOWN).
Proof.
  cbv zeta. unfold decide. repeat split.
  - intros ->. reflexivity.
  - intros -> ->. reflexivity.
  - intros -> Hlt. rewrite (ltb_zero_asym _ Hlt). reflexivity.
  - intros Hz Hpos. apply eqb_zero_is_zero in Hz.
    rewrite (abs_zero_below_positive _ _ Hz Hpos). reflexivity.
  - intros Hz Hm. apply eqb_zero_is_zero in Hz.
    rewrite (abs_zero_not_below_zero _ _ Hz Hm), (zero_not_above_zero _ Hz).
    reflexivity.
Qed.

(** The five cases on prices around 50000, with the thresholds 5 and 0. *)
Lemma decide_spec_witness :
  decide (Float.of_Z 50000) (Float.of_Z 50002) (Float.of_Z 5) = NONE /\
  decide (Float.of_Z 50000) (Float.of_Z 50010) (Float.of_Z 5) = UP /\
  decide (Float.of_Z 50000) (Float.of_Z 49990) (Float.of_Z 5) = DOWN /\
  decide (Float.of_Z 50000) (Float.of_Z 50000) (Float.of_Z 5) = NONE /\
  decide (Float.of_Z 50000) (Float.of_Z 50000) (Float.of_Z 0) = DOWN.
Proof.
  split; [|split; [|split; [|split]]].
  - apply (proj1 (decide_spec (Float.of_Z 50000) (Float.of_Z 50002) (Float.of_Z 5))).
    reflexivity.
  - apply (proj1 (proj2 (decide_spec (Float.of_Z 50000) (Float.of_Z 50010) (Float.of_Z 5))));
      reflexivity.
  - apply (proj1 (proj2 (proj2
      (decide_spec (Float.of_Z 50000) (Float.of_Z 49990) (Float.of_Z 5)))));
      reflexivity.
  - apply (proj1 (proj2 (proj2 (proj2
      (decide_spec (Float.of_Z 50000) (Float.of_Z 50000) (Float.of_Z 5))))));
      reflexivity.
  - apply (proj2 (proj2 (proj2 (proj2
      (decide_spec (Float.of_Z 50000) (Float.of_Z 50000) (Float.of_Z 0))))));
      reflexivity.
Defined.

(** ** The window alignment *)

Section Alignment.

Variable cfg : config.
Hypothesis window_positive : 0 < WINDOW_SECONDS cfg.

Let w : Q := inject_Z (WINDOW_SECONDS cfg).

Lemma window_positive_Q : (0 < w)%Q.
Proof.
  unfold w. change 0%Q with (inject_Z 0). rewrite <- Zlt_Qlt. exact window_positive.
Qed.

Lemma py_mod_window (now : Q) :
  py_mod now (WINDOW_SECONDS cfg) = Ok (now - w * inject_Z (Qfloor (now / w)))%Q.
Proof.
  unfold py_mod. destruct (Z.eqb_spec (WINDOW_SECONDS cfg) 0) as [E|_]; [lia|reflexivity].
Qed.

Lemma floor_window_bounds (now : Q) :
  (w * inject_Z (Qfloor (now / w)) <= now /\
   now < w * inject_Z (Qfloor (now / w)) + w)%Q.
Proof.
  pose proof window_positive_Q as Hw.
  assert (Hne : ~ (w == 0)%Q) by (intros E; rewrite E in Hw; discriminate Hw).
  pose proof (Qfloor_le (now / w)) as Hlo.
  pose proof (Qlt_floor (now / w)) as Hhi.
  rewrite inject_Z_plus in Hhi.
  assert (Hnow : (now == w * (now / w))%Q) by (field; exact Hne).
  split.
  - rewrite Hnow at 2. apply Qmult_le_l; assumption.
  - rewrite Hnow at 1.
    setoid_replace (w * inject_Z (Qfloor (now / w)) + w)%Q
      with (w * (inject_Z (Qfloor (now / w)) + inject_Z 1))%Q using relation Qeq by ring.
    apply Qmult_lt_l; assumption.
Qed.

End Alignment.

(** C6 (as stated, refuted): at [t = 600], which is exactly on a boundary of
    the 300 s grid, the computed start is 900 and not the instant 600
    itself. *)
Lemma next_window_start_on_boundary_is_not_now :
  py_mod 600 (WINDOW_SECONDS default_config) = Ok 0%Q /\
  exists r, next_window_start default_config 600 = Ok r /\
            (r == 900)%Q /\ ~ (r == 600)%Q.
Proof.
  split; [reflexivity|].
  eexists. split; [reflexivity|]. split; [reflexivity|]. intros H. discriminate H.
Qed.

(** C6 (amended): for every current time [t] the next window start is an
    exact multiple of WINDOW_SECONDS, is strictly greater than [t] and is at
    most [t + WINDOW_SECONDS]; when [t] is itself exactly on a boundary the
    start is [t + WINDOW_SECONDS], the next boundary, never [t]. *)
Theorem next_window_start_aligned (cfg : config) (now : Q) :
  0 < WINDOW_SECONDS cfg ->
  exists (r : Q) (k : Z),
    next_window_start cfg now = Ok r /\
    (r == inject_Z (k * WINDOW_SECONDS cfg))%Q /\
    (now < r)%Q /\
    (r <= now + inject_Z (WINDOW_SECONDS cfg))%Q /\
    (forall j : Z, (now == inject_Z (j * WINDOW_SECONDS cfg))%Q ->
                   (r == now + inject_Z (WINDOW_SECONDS cfg))%Q).
Proof.
  intros Hpos.
  pose proof (floor_window_bounds cfg Hpos now) as [Hlo Hhi].
  pose proof (window_positive_Q cfg Hpos) as Hw.
  set (w := inject_Z (WINDOW_SECONDS cfg)) in *.
  set (fl := Qfloor (now / w)) in *.
  exists (now - (now - w * inject_Z fl) + w)%Q, (fl + 1).
  split; [|split; [|split; [|split]]].
  - unfold next_window_start. rewrite (py_mod_window cfg Hpos). reflexivity.
  - rewrite inject_Z_mult, inject_Z_plus. fold w. ring.
  - setoid_replace (now - (now - w * inject_Z fl) + w)%Q with (w * inject_Z fl + w)%Q
      using relation Qeq by ring.
    exact Hhi.
  - setoid_replace (now - (now - w * inject_Z fl) + w)%Q with (w * inject_Z fl + w)%Q
      using relation Qeq by ring.
    apply Qplus_le_l. exact Hlo.
  - intros j Hj.
    assert (Hne : ~ (w == 0)%Q) by (intros E; rewrite E in Hw; discriminate Hw).
    assert (Hfl : fl = j).
    { unfold fl. rewrite <- (Qfloor_Z j). apply Qfloor_comp.
      rewrite Hj, inject_Z_mult. fold w. field. exact Hne. }
    rewrite Hfl, Hj, inject_Z_mult. fold w. ring.
Qed.

(** The alignment at [t = 1000] under the default window of 300 s. *)
Lemma next_window_start_aligned_witness :
  0 < WINDOW_SECONDS default_config /\
  exists (r : Q) (k : Z),
    next_window_start default_config (1000 # 1) = Ok r /\
    (r == inject_Z (k * WINDOW_SECONDS default_config))%Q /\
    ((1000 # 1) < r)%Q /\
    (r <= (1000 # 1) + inject_Z (WINDOW_SECONDS default_config))%Q /\
    (forall j : Z, ((1000 # 1) == inject_Z (j * WINDOW_SECONDS default_config))%Q ->
                   (r == (1000 # 1) + inject_Z (WINDOW_SECONDS default_config))%Q).
Proof.
  split; [reflexivity|].
  apply (next_window_start_aligned default_config (1000 # 1)). reflexivity.
Defined.

(** ** One iteration of the loop *)

Section Iteration.

Variable cfg : config.
Variable w : window_feed.
Variable st : bot.
Variables (rows : list trade) (m : gmap string float).

Hypothesis window_nonzero : WINDOW_SECONDS cfg <> 0.
Hypothesis con_ready :
  con st = {| file := {| trades := Some rows; state := Some m |}; transaction := None |}.

Lemma next_window_start_total (now : Q) :
  exists ws, next_window_start cfg now = Ok ws.
Proof.
  unfold next_window_start, py_mod.
  destruct (Z.eqb_spec (WINDOW_SECONDS cfg) 0) as [E|_]; [contradiction|].
  eexists. reflexivity.
Qed.

Lemma market_loop_body_skip :
  decide (price_at_open w) (price_at_signal w) (MIN_MOVE_USD cfg) = NONE ->
  exists ws,
    next_window_start cfg (clock_at_top w) = Ok ws /\
    market_loop_body cfg w st
    = Ok {| con := {| file := {| trades := Some (rows ++ [skip_row cfg w ws (balance st)]);
                                 state := Some m |};
                      transaction := None |};
            balance := balance st |}.
Proof.
  intros Hd. destruct (next_window_start_total (clock_at_top w)) as [ws Hws].
  exists ws. split; [exact Hws|].
  unfold market_loop_body, market_loop_body_on. rewrite Hws, Hd, con_ready. reflexivity.
Qed.

Lemma market_loop_body_bet (dir : direction) :
  decide (price_at_open w) (price_at_signal w) (MIN_MOVE_USD cfg) = dir ->
  dir <> NONE ->
  Float.is_zero (ENTRY_PRICE cfg) = false ->
  exists ws,
    next_window_start cfg (clock_at_top w) = Ok ws /\
    market_loop_body cfg w st
    = Ok {| con := {| file :=
                        {| trades :=
                             Some (rows ++ [bet_row cfg w ws dir
                                              (settle_outcome dir (price_at_open w) (price_at_close w))
                                              (bet_pnl cfg w dir)
                                              (bet_balance cfg w dir (balance st))]);
                           state :=
                             Some (alter (fun _ => bet_balance cfg w dir (balance st))
                                         "balance"%string m) |};
                      transaction := None |};
            balance := bet_balance cfg w dir (balance st) |}.
Proof.
  intros Hd Hdir Hentry. destruct (next_window_start_total (clock_at_top w)) as [ws Hws].
  exists ws. split; [exact Hws|].
  unfold market_loop_body, market_loop_body_on, py_div.
  rewrite Hws, Hd, Hentry, con_ready.
  destruct dir; [reflexivity|reflexivity|contradiction].
Qed.

End Iteration.

Lemma settle_outcome_cases (dir : direction) (btc_open btc_close : float) :
  settle_outcome dir btc_open btc_close = WIN \/
  settle_outcome dir btc_open btc_close = LOSS.
Proof.
  unfold settle_outcome. destruct (Float.eqb _ _); [right; reflexivity|].
  destruct (direction_eqb _ _); [left|right]; reflexivity.
Qed.

Lemma runnable_inv (cfg : config) :
  runnable cfg = true ->
  WINDOW_SECONDS cfg <> 0 /\ Float.is_zero (ENTRY_PRICE cfg) = false.
Proof.
  unfold runnable. intros H. apply andb_prop in H as [H1 H2].
  apply negb_true_iff in H1, H2. split; [|exact H2].
  apply Z.eqb_neq. exact H1.
Qed.

(** ** The settlement *)

(** C3: a flat close is a loss whatever the direction of the bet; the row of
    such a window is recorded with outcome LOSS and the payoff of a loss. *)
Theorem flat_close_is_loss (cfg : config) (w : window_feed) (st : bot) :
  runnable cfg = true ->
  ready (con st) = true ->
  decide (price_at_open w) (price_at_signal w) (MIN_MOVE_USD cfg) <> NONE ->
  Float.eqb (price_at_close w) (price_at_open w) = true ->
  (forall dir, settle_outcome dir (price_at_open w) (price_at_close w) = LOSS) /\
  exists st' old row,
    market_loop_body cfg w st = Ok st' /\
    trades (file (con st')) = Some (old ++ [row]) /\
    direction_bet row <> NONE /\
    outcome row = LOSS /\
    pnl row = Float.round (Float.add (Float.neg (ORDER_SIZE_USD cfg)) (MAKER_REBATE cfg)) 4.
Proof.
  intros Hrun Hready Hbet Hflat.
  assert (Hloss : forall dir, settle_outcome dir (price_at_open w) (price_at_close w) = LOSS).
  { intros dir. unfold settle_outcome. rewrite Hflat. reflexivity. }
  split; [exact Hloss|].
  destruct (runnable_inv cfg Hrun) as [Hw Hentry].
  destruct (ready_shape _ Hready) as (rows & m & Hcon).
  destruct (market_loop_body_bet cfg w st rows m Hw Hcon _ eq_refl Hbet Hentry)
    as (ws & _ & Hbody).
  eexists _, rows, _. split; [exact Hbody|]. simpl.
  split; [reflexivity|]. split; [exact Hbet|]. split; [apply Hloss|].
  unfold bet_pnl, settle_pnl. rewrite Hloss. reflexivity.
Qed.

(** Scenario 2 on the new ledger: a bet DOWN and a flat close. *)
Lemma flat_close_is_loss_witness :
  runnable default_config = true /\
  ready (con fresh_bot) = true /\
  decide (price_at_open flat_window) (price_at_signal flat_window)
         (MIN_MOVE_USD default_config) <> NONE /\
  Float.eqb (price_at_close flat_window) (price_at_open flat_window) = true /\
  ((forall dir,
      settle_outcome dir (price_at_open flat_window) (price_at_close flat_window) = LOSS) /\
   exists st' old row,
     market_loop_body default_config flat_window fresh_bot = Ok st' /\
     trades (file (con st')) = Some (old ++ [row]) /\
     direction_bet row <> NONE /\
     outcome row = LOSS /\
     pnl row = Float.round (Float.add (Float.neg (ORDER_SIZE_USD default_config))
                                      (MAKER_REBATE default_config)) 4).
Proof.
  assert (H1 : runnable default_config = true) by reflexivity.
  assert (H2 : ready (con fresh_bot) = true) by reflexivity.
  assert (H3 : decide (price_at_open flat_window) (price_at_signal flat_window)
                      (MIN_MOVE_USD default_config) <> NONE)
    by (vm_compute; discriminate).
  assert (H4 : Float.eqb (price_at_close flat_window) (price_at_open flat_window) = true)
    by reflexivity.
  exact (conj H1 (conj H2 (conj H3 (conj H4
           (flat_close_is_loss default_config flat_window fresh_bot H1 H2 H3 H4))))).
Defined.

(** ** Rounding to decimals *)

Lemma round_half_even_nearest (num den : Z) :
  0 <= num -> 0 < den ->
  0 <= Float.round_half_even num den /\
  2 * Z.abs (num - Float.round_half_even num den * den) <= den /\
  (2 * Z.abs (num - Float.round_half_even num den * den) = den ->
   Z.even (Float.round_half_even num den) = true).
Proof.
  intros Hnum Hden. unfold Float.round_half_even.
  pose proof (Z.div_mod num den ltac:(lia)) as Hdm.
  pose proof (Z.mod_pos_bound num den Hden) as Hr.
  pose proof (Z.div_pos num den Hnum Hden) as Hq.
  set (q := num / den) in *. set (r := num mod den) in *.
  destruct (Z.compare_spec (2 * r) den) as [E|L|G].
  - destruct (Z.even q) eqn:Ev.
    + split; [lia|]. split; [lia|]. intros _. exact Ev.
    + split; [lia|]. split; [lia|]. intros _.
      rewrite Z.even_add, Ev. reflexivity.
  - split; [lia|]. split; [lia|]. intros H. lia.
  - split; [lia|]. split; [lia|]. intros H. lia.
Qed.

Lemma Qabs_exact (v scale n : Z) :
  n = v * scale ->
  (Qabs (inject_Z v * inject_Z scale - inject_Z n) == 0)%Q.
Proof.
  intros ->. rewrite <- inject_Z_mult. unfold Qminus.
  rewrite <- inject_Z_opp, <- inject_Z_plus.
  replace (v * scale + - (v * scale)) with 0 by ring. reflexivity.
Qed.

Lemma Qabs_fraction (m d : positive) (scale n : Z) :
  ((Qabs ((Z.pos m # d) * inject_Z scale - inject_Z n) <= 1 # 2)%Q <->
   2 * Z.abs (Z.pos m * scale - n * Z.pos d) <= Z.pos d) /\
  ((Qabs ((Z.pos m # d) * inject_Z scale - inject_Z n) == 1 # 2)%Q <->
   2 * Z.abs (Z.pos m * scale - n * Z.pos d) = Z.pos d).
Proof.
  unfold Qle, Qeq, Qabs, Qminus, Qplus, Qmult, Qopp, inject_Z. simpl.
  rewrite !Pos.mul_1_r, !Z.mul_1_r.
  replace (Z.pos m * scale + - n * Z.pos d) with (Z.pos m * scale - n * Z.pos d) by ring.
  split; split; lia.
Qed.

(** What [round] returns is the rounding of its argument. *)
Lemma round_rounded (x : float) (places : Z) :
  rounded_to places x (Float.round x places).
Proof.
  destruct x as [s|s| |s m e]; try reflexivity.
  unfold rounded_to, Float.round. simpl Float.abs. cbv zeta.
  assert (Hscale : 0 <= 10 ^ places) by (apply Z.pow_nonneg; lia).
  destruct e as [|e|p].
  - exists (Z.pos m * 10 ^ places * 2 ^ 0).
    assert (Hz := Qabs_exact (Z.pos m * 2 ^ 0) (10 ^ places)
                    (Z.pos m * 10 ^ places * 2 ^ 0) ltac:(ring)).
    simpl Float.to_Q. split; [lia|]. rewrite Hz.
    split; [discriminate|]. split; [intros H; discriminate H|reflexivity].
  - exists (Z.pos m * 10 ^ places * 2 ^ Z.pos e).
    assert (Hz := Qabs_exact (Z.pos m * 2 ^ Z.pos e) (10 ^ places)
                    (Z.pos m * 10 ^ places * 2 ^ Z.pos e) ltac:(ring)).
    simpl Float.to_Q.
    split; [apply Z.mul_nonneg_nonneg; [lia|apply Z.pow_nonneg; lia]|].
    rewrite Hz.
    split; [discriminate|]. split; [intros H; discriminate H|reflexivity].
  - exists (Float.round_half_even (Z.pos m * 10 ^ places) (2 ^ Z.pos p)).
    simpl Float.to_Q.
    rewrite <- (Pos2Z.inj_pow 2 p).
    destruct (round_half_even_nearest (Z.pos m * 10 ^ places) (Z.pos (2 ^ p))
                ltac:(lia) ltac:(lia)) as (Hn & Hle & Htie).
    destruct (Qabs_fraction m (2 ^ p) (10 ^ places)
                (Float.round_half_even (Z.pos m * 10 ^ places) (Z.pos (2 ^ p))))
      as [Hq1 Hq2].
    split; [exact Hn|]. split; [apply Hq1; exact Hle|].
    split; [intros H; apply Htie, Hq2; exact H|reflexivity].
Qed.

(** C4: for every bet window, with [shares = order_size / entry_price], the
    recorded payoff is [shares * (1 - entry_price) + rebate] on a WIN and
    [-order_size + rebate] on a LOSS, each rounded to 4 decimals: it is the
    float of the decimal [n / 10^4] whose [n] is the integer nearest to
    10^4 times the unrounded value, ties to even.  It is this rounded
    payoff that is added to the balance; the sum is rounded to 4 decimals
    in the same way, written to the [balance] row of [state] and carried by
    the appended row. *)
Theorem bet_payoff (cfg : config) (w : window_feed) (st : bot) :
  runnable cfg = true ->
  ready (con st) = true ->
  decide (price_at_open w) (price_at_signal w) (MIN_MOVE_USD cfg) <> NONE ->
  exists shares st' old row,
    py_div (ORDER_SIZE_USD cfg) (ENTRY_PRICE cfg) = Ok shares /\
    shares = Float.div (ORDER_SIZE_USD cfg) (ENTRY_PRICE cfg) /\
    market_loop_body cfg w st = Ok st' /\
    trades (file (con st)) = Some old /\
    trades (file (con st')) = Some (old ++ [row]) /\
    (outcome row = WIN \/ outcome row = LOSS) /\
    (outcome row = WIN ->
       pnl row = Float.round
                   (Float.add (Float.mul shares (Float.sub (Float.of_Z 1) (ENTRY_PRICE cfg)))
                              (MAKER_REBATE cfg)) 4 /\
       rounded_to 4
         (Float.add (Float.mul shares (Float.sub (Float.of_Z 1) (ENTRY_PRICE cfg)))
                    (MAKER_REBATE cfg))
         (pnl row)) /\
    (outcome row = LOSS ->
       pnl row = Float.round
                   (Float.add (Float.neg (ORDER_SIZE_USD cfg)) (MAKER_REBATE cfg)) 4 /\
       rounded_to 4 (Float.add (Float.neg (ORDER_SIZE_USD cfg)) (MAKER_REBATE cfg))
                  (pnl row)) /\
    balance st' = Float.round (Float.add (balance st) (pnl row)) 4 /\
    rounded_to 4 (Float.add (balance st) (pnl row)) (balance st') /\
    balance_after row = balance st' /\
    stored_balance (file (con st'))
    = (fun _ => balance st') <$> stored_balance (file (con st)).
Proof.
  intros Hrun Hready Hbet.
  destruct (runnable_inv cfg Hrun) as [Hw Hentry].
  destruct (ready_shape _ Hready) as (rows & m & Hcon).
  destruct (market_loop_body_bet cfg w st rows m Hw Hcon _ eq_refl Hbet Hentry)
    as (ws & _ & Hbody).
  eexists _, _, rows, _.
  split; [unfold py_div; rewrite Hentry; reflexivity|].
  split; [reflexivity|]. split; [exact Hbody|]. rewrite Hcon. simpl.
  split; [reflexivity|]. split; [reflexivity|].
  unfold bet_balance, bet_pnl, settle_pnl, stored_balance. simpl.
  rewrite lookup_alter_eq.
  destruct (settle_outcome _ (price_at_open w) (price_at_close w)) eqn:Hout; simpl.
  - split; [left; reflexivity|].
    split; [intros _; split; [reflexivity|apply round_rounded]|].
    split; [discriminate|].
    split; [reflexivity|]. split; [apply round_rounded|]. split; reflexivity.
  - split; [right; reflexivity|].
    split; [discriminate|].
    split; [intros _; split; [reflexivity|apply round_rounded]|].
    split; [reflexivity|]. split; [apply round_rounded|]. split; reflexivity.
  - exfalso. revert Hout. unfold settle_outcome.
    destruct (Float.eqb _ _); [discriminate|].
    destruct (direction_eqb _ _); discriminate.
Qed.

(** Scenario 1 on the new ledger. *)
Lemma bet_payoff_witness :
  runnable default_config = true /\
  ready (con fresh_bot) = true /\
  decide (price_at_open winning_window) (price_at_signal winning_window)
         (MIN_MOVE_USD default_config) <> NONE /\
  exists shares st' old row,
    py_div (ORDER_SIZE_USD default_config) (ENTRY_PRICE default_config) = Ok shares /\
    shares = Float.div (ORDER_SIZE_USD default_config) (ENTRY_PRICE default_config) /\
    market_loop_body default_config winning_window fresh_bot = Ok st' /\
    trades (file (con fresh_bot)) = Some old /\
    trades (file (con st')) = Some (old ++ [row]) /\
    (outcome row = WIN \/ outcome row = LOSS) /\
    (outcome row = WIN ->
       pnl row = Float.round
                   (Float.add (Float.mul shares
                                 (Float.sub (Float.of_Z 1) (ENTRY_PRICE default_config)))
                              (MAKER_REBATE default_config)) 4 /\
       rounded_to 4
         (Float.add (Float.mul shares
                       (Float.sub (Float.of_Z 1) (ENTRY_PRICE default_config)))
                    (MAKER_REBATE default_config))
         (pnl row)) /\
    (outcome row = LOSS ->
       pnl row = Float.round
                   (Float.add (Float.neg (ORDER_SIZE_USD default_config))
                              (MAKER_REBATE default_config)) 4 /\
       rounded_to 4 (Float.add (Float.neg (ORDER_SIZE_USD default_config))
                               (MAKER_REBATE default_config))
                  (pnl row)) /\
    balance st' = Float.round (Float.add (balance fresh_bot) (pnl row)) 4 /\
    rounded_to 4 (Float.add (balance fresh_bot) (pnl row)) (balance st') /\
    balance_after row = balance st' /\
    stored_balance (file (con st'))
    = (fun _ => balance st') <$> stored_balance (file (con fresh_bot)).
Proof.
  assert (H1 : runnable default_config = true) by reflexivity.
  assert (H2 : ready (con fresh_bot) = true) by reflexivity.
  assert (H3 : decide (price_at_open winning_window) (price_at_signal winning_window)
                      (MIN_MOVE_USD default_config) <> NONE)
    by (vm_compute; discriminate).
  exact (conj H1 (conj H2 (conj H3
           (bet_payoff default_config winning_window fresh_bot H1 H2 H3)))).
Defined.

(** ** Scenario 1 under the default constants *)

(** C5 (as stated, refuted): the payoff of scenario 1 is not 0.8752.  The
    float computed differs from the float 0.8752, and the exact value of
    (10/0.92) * 0.08 + 0.005, which is 4023/4600 = 0.87456..., is below
    0.8747. *)
Lemma scenario1_pnl_is_not_8752 :
  decide (Float.of_Z 50000) (Float.of_Z 50010) (MIN_MOVE_USD default_config) = UP /\
  settle_outcome UP (Float.of_Z 50000) (Float.of_Z 50050) = WIN /\
  bet_pnl default_config winning_window UP <> Float.decimal 8752 4 /\
  Float.eqb (bet_pnl default_config winning_window UP) (Float.decimal 8752 4) = false /\
  ((10 / (92 # 100)) * (1 - (92 # 100)) + (5 # 1000) < 8747 # 10000)%Q.
Proof.
  split; [reflexivity|]. split; [reflexivity|].
  split; [vm_compute; discriminate|]. split; reflexivity.
Qed.

(** C5 (amended): under the default constants, open 50000 and signal 50010
    give the decision UP, the close 50050 gives the outcome WIN, and the
    payoff is (10/0.92) * 0.08 + 0.005 = 0.87456... rounded to 4 decimals,
    that is 0.8746; the run on a new file records this row and leaves the
    balance 100.8746. *)
Theorem scenario1_pnl_is_8746 :
  decide (Float.of_Z 50000) (Float.of_Z 50010) (MIN_MOVE_USD default_config) = UP /\
  settle_outcome UP (Float.of_Z 50000) (Float.of_Z 50050) = WIN /\
  bet_pnl default_config winning_window UP = Float.decimal 8746 4 /\
  ((10 / (92 # 100)) * (1 - (92 # 100)) + (5 # 1000) == 4023 # 4600)%Q /\
  ((87455 # 100000) < (4023 # 4600))%Q /\
  ((4023 # 4600) < (87465 # 100000))%Q /\
  exists st row,
    run default_config empty_file [winning_window] = Ok st /\
    trades (file (con st)) = Some [row] /\
    direction_bet row = UP /\
    outcome row = WIN /\
    pnl row = Float.decimal 8746 4 /\
    balance_after row = Float.decimal 1008746 4 /\
    balance st = Float.decimal 1008746 4 /\
    stored_balance (file (con st)) = Some (Float.decimal 1008746 4).
Proof.
  do 6 (split; [reflexivity|]).
  eexists _, _. split; [vm_compute; reflexivity|].
  split; [reflexivity|]. repeat split; reflexivity.
Qed.

(** ** The start of the ledger *)

Section Startup.

Variable cfg : config.

Lemma init_db_result (f : database) :
  init_db cfg f
  = Ok {| file :=
            {| trades := Some (default [] (trades f));
               state :=
                 Some (match stored_balance f with
                       | Some _ => default ∅ (state f)
                       | None => <["balance"%string := INITIAL_BALANCE cfg]> (default ∅ (state f))
                       end) |};
          transaction := None |}.
Proof.
  destruct f as [rows [m|]]; unfold init_db, stored_balance, select_balance; simpl.
  - destruct (m !! "balance"%string) as [v|] eqn:E; simpl; [reflexivity|].
    unfold execute. simpl. rewrite E. reflexivity.
  - rewrite lookup_empty. unfold execute. simpl. rewrite lookup_empty. reflexivity.
Qed.

Lemma init_db_stored_balance (f : database) (c : connection) :
  init_db cfg f = Ok c ->
  stored_balance (file c) = Some (default (INITIAL_BALANCE cfg) (stored_balance f)).
Proof.
  rewrite init_db_result. intros [= <-]. unfold stored_balance at 1. simpl.
  destruct (stored_balance f) as [v|] eqn:E; simpl.
  - unfold stored_balance in E. destruct (state f); [exact E|discriminate].
  - apply lookup_insert_eq.
Qed.

End Startup.

(** C8: [init_db] always succeeds; it creates the balance row with the
    configured initial value only when there is none, and keeps the stored
    value otherwise; a second call on the file it left, with any
    configuration, leaves the same file. *)
Theorem init_db_idempotent (cfg cfg' : config) (f : database) :
  exists c,
    init_db cfg f = Ok c /\
    transaction c = None /\
    stored_balance (file c) = Some (default (INITIAL_BALANCE cfg) (stored_balance f)) /\
    trades (file c) = Some (default [] (trades f)) /\
    init_db cfg' (file c) = Ok c.
Proof.
  destruct (init_db cfg f) as [c|e] eqn:E; [|rewrite init_db_result in E; discriminate].
  exists c. split; [reflexivity|].
  pose proof (init_db_stored_balance cfg f c E) as Hbal.
  rewrite init_db_result in E. injection E as <-. simpl in *.
  split; [reflexivity|]. split; [exact Hbal|]. split; [reflexivity|].
  rewrite init_db_result. unfold stored_balance in Hbal |- *. simpl in *.
  rewrite Hbal. reflexivity.
Qed.

Lemma run_startup_synced (cfg : config) (f : database) :
  exists st, run_startup cfg f = Ok st /\ synced st /\
             balance st = default (INITIAL_BALANCE cfg) (stored_balance f) /\
             trades (file (con st)) = Some (default [] (trades f)).
Proof.
  pose proof (init_db_stored_balance cfg f) as Hbal.
  unfold run_startup. rewrite init_db_result in *.
  specialize (Hbal _ eq_refl). simpl.
  unfold get_balance, select_balance. unfold stored_balance in Hbal at 1.
  simpl in *. rewrite Hbal. simpl.
  eexists. split; [reflexivity|]. split; [|split; reflexivity].
  split; [reflexivity|]. unfold stored_balance at 1. simpl. exact Hbal.
Qed.

(** ** The ledger along the loop *)

Section Ledger.

Variable cfg : config.
Hypothesis cfg_runnable : runnable cfg = true.

Lemma synced_shape (st : bot) :
  synced st ->
  exists rows m,
    con st = {| file := {| trades := Some rows; state := Some m |}; transaction := None |} /\
    m !! "balance"%string = Some (balance st).
Proof.
  intros [Hready Hbal]. destruct (ready_shape _ Hready) as (rows & m & Hcon).
  exists rows, m. split; [exact Hcon|]. rewrite Hcon in Hbal. exact Hbal.
Qed.

(** One window from a synced state: the row appended, the state left, and
    the database calls that led there. *)
Lemma market_loop_body_synced (w : window_feed) (st : bot) :
  synced st ->
  exists st' old row,
    market_loop_body cfg w st = Ok st' /\
    synced st' /\
    trades (file (con st)) = Some old /\
    trades (file (con st')) = Some (old ++ [row]) /\
    balance_after row = balance st' /\
    balance st' = ledger_step (balance st) row /\
    (outcome row = SKIP -> pnl row = Float.of_Z 0) /\
    match outcome row with
    | SKIP =>
        run_script (record_trade_script row) (con st) = Ok (con st') /\
        stored_balance (file (con st')) = stored_balance (file (con st))
    | _ =>
        run_script (settlement_script (balance_after row) row) (con st) = Ok (con st')
    end.
Proof.
  intros Hs. destruct (synced_shape st Hs) as (rows & m & Hcon & Hbal).
  destruct (runnable_inv cfg cfg_runnable) as [Hw Hentry].
  destruct (decide (price_at_open w) (price_at_signal w) (MIN_MOVE_USD cfg)) as [| |] eqn:Hd.
  3: { destruct (market_loop_body_skip cfg w st rows m Hw Hcon Hd) as (ws & _ & Hbody).
       eexists _, rows, _. split; [exact Hbody|]. rewrite Hcon. simpl.
       split; [split; [reflexivity|exact Hbal]|].
       repeat split; reflexivity. }
  all: destruct (market_loop_body_bet cfg w st rows m Hw Hcon _ Hd ltac:(discriminate) Hentry)
         as (ws & _ & Hbody).
  all: eexists _, rows, _; split; [exact Hbody|]; rewrite Hcon; simpl.
  all: split; [split; [reflexivity|];
               unfold stored_balance; simpl; rewrite lookup_alter_eq, Hbal; reflexivity|].
  all: do 3 (split; [reflexivity|]).
  all: unfold ledger_step, bet_balance, bet_pnl; simpl.
  all: match goal with
       | |- context [settle_outcome ?d ?o ?c] =>
           destruct (settle_outcome_cases d o c) as [-> | ->]
       end.
  all: split; [reflexivity|]; split; [discriminate|reflexivity].
Qed.

(** Any number of windows from a synced state. *)
Lemma market_loop_synced (feed : list window_feed) (st : bot) :
  synced st ->
  exists st' old new,
    market_loop cfg feed st = Ok st' /\
    synced st' /\
    trades (file (con st)) = Some old /\
    trades (file (con st')) = Some (old ++ new) /\
    length new = length feed /\
    chained (balance st) new /\
    balance st' = fold_left ledger_step new (balance st) /\
    balance st' = default (balance st) (balance_after <$> last new).
Proof.
  revert st. induction feed as [|w feed IH]; intros st Hs.
  - destruct (synced_shape st Hs) as (rows & m & Hcon & _).
    exists st, rows, []. simpl. rewrite app_nil_r, Hcon. simpl.
    split; [reflexivity|]. split; [exact Hs|].
    repeat split; reflexivity.
  - destruct (market_loop_body_synced w st Hs)
      as (st1 & old & row & Hbody & Hs1 & Hold & Hnew & Hafter & Hstep & Hskip & _).
    destruct (IH st1 Hs1)
      as (st' & old1 & new & Hloop & Hs' & Hold1 & Hnew1 & Hlen & Hchain & Hfold & Hlast).
    rewrite Hnew in Hold1. injection Hold1 as <-.
    exists st', old, (row :: new). simpl. rewrite Hbody. simpl.
    split; [exact Hloop|]. split; [exact Hs'|]. split; [exact Hold|].
    split; [rewrite Hnew1, <- app_assoc; reflexivity|].
    split; [rewrite Hlen; reflexivity|].
    split; [rewrite Hafter, <- Hstep; repeat split; auto|].
    split; [rewrite <- Hstep; exact Hfold|].
    rewrite Hlast. destruct new as [|r new]; [symmetry; exact Hafter|].
    change (last (row :: r :: new)) with (last (r :: new)).
    destruct (last (r :: new)) eqn:El; [reflexivity|].
    apply last_None in El. discriminate.
Qed.

Lemma market_loop_app (feed1 feed2 : list window_feed) (st : bot) :
  market_loop cfg (feed1 ++ feed2) st
  = st' ← market_loop cfg feed1 st; market_loop cfg feed2 st'.
Proof.
  revert st. induction feed1 as [|w feed1 IH]; intros st; simpl; [reflexivity|].
  destruct (market_loop_body cfg w st) as [st1|e]; simpl; [apply IH|reflexivity].
Qed.

End Ledger.

(** C10: after every recorded window, bet or skip, the balance stored in
    [state] is the [balance_after] of the row appended last (and the
    in-memory balance).  A bet commits the UPDATE of the balance and then
    the INSERT of the row that carries the same value; a skip only inserts
    a row that carries the current balance and leaves the stored balance
    as it was. *)
Theorem stored_balance_is_last_balance_after
    (cfg : config) (f : database) (feed : list window_feed) (w : window_feed) :
  runnable cfg = true ->
  exists st_prev st rows row,
    run cfg f feed = Ok st_prev /\
    stored_balance (file (con st_prev)) = Some (balance st_prev) /\
    run cfg f (feed ++ [w]) = Ok st /\
    transaction (con st) = None /\
    trades (file (con st_prev)) = Some rows /\
    trades (file (con st)) = Some (rows ++ [row]) /\
    stored_balance (file (con st)) = Some (balance_after row) /\
    balance st = balance_after row /\
    match outcome row with
    | SKIP =>
        run_script (record_trade_script row) (con st_prev) = Ok (con st) /\
        stored_balance (file (con st)) = stored_balance (file (con st_prev)) /\
        balance_after row = balance st_prev
    | _ =>
        run_script (set_balance_script (balance_after row) ++ record_trade_script row)
                   (con st_prev) = Ok (con st)
    end.
Proof.
  intros Hrun.
  destruct (run_startup_synced cfg f) as (st0 & Hstart & Hs0 & _ & _).
  destruct (market_loop_synced cfg Hrun feed st0 Hs0)
    as (st1 & old & new & Hloop & Hs1 & _ & Hrows & _).
  destruct (market_loop_body_synced cfg Hrun w st1 Hs1)
    as (st2 & old1 & row & Hbody & Hs2 & Hold1 & Hnew1 & Hafter & Hstep & _ & Hcalls).
  exists st1, st2, old1, row. unfold run. rewrite Hstart. simpl.
  split; [exact Hloop|]. split; [apply Hs1|].
  split; [rewrite market_loop_app, Hloop; simpl; rewrite Hbody; reflexivity|].
  destruct Hs2 as [Hready2 Hbal2].
  split; [destruct (ready_shape _ Hready2) as (? & ? & ->); reflexivity|].
  split; [exact Hold1|]. split; [exact Hnew1|].
  split; [rewrite Hafter; exact Hbal2|].
  split; [symmetry; exact Hafter|].
  unfold ledger_step in Hstep. unfold settlement_script in Hcalls.
  destruct (outcome row); try exact Hcalls.
  destruct Hcalls as [Hc1 Hc2]. repeat split; try assumption.
  rewrite Hafter. exact Hstep.
Qed.

(** A losing bet followed by a skip, from a file that did not exist. *)
Lemma stored_balance_is_last_balance_after_witness :
  runnable default_config = true /\
  exists st_prev st rows row,
    run default_config empty_file [losing_window] = Ok st_prev /\
    stored_balance (file (con st_prev)) = Some (balance st_prev) /\
    run default_config empty_file ([losing_window] ++ [skipped_window]) = Ok st /\
    transaction (con st) = None /\
    trades (file (con st_prev)) = Some rows /\
    trades (file (con st)) = Some (rows ++ [row]) /\
    stored_balance (file (con st)) = Some (balance_after row) /\
    balance st = balance_after row /\
    match outcome row with
    | SKIP =>
        run_script (record_trade_script row) (con st_prev) = Ok (con st) /\
        stored_balance (file (con st)) = stored_balance (file (con st_prev)) /\
        balance_after row = balance st_prev
    | _ =>
        run_script (set_balance_script (balance_after row) ++ record_trade_script row)
                   (con st_prev) = Ok (con st)
    end.
Proof.
  assert (H1 : runnable default_config = true) by reflexivity.
  exact (conj H1 (stored_balance_is_last_balance_after
                    default_config empty_file [losing_window] skipped_window H1)).
Defined.

(** C7 (as stated, refuted): the balance of a settled bet is
    [round(balance + pnl, 4)], which is not always the float [balance + pnl].
    Under the default constants, two losing bets from the initial balance
    100.0 leave 90.005 and then 80.01, while the float sum 90.005 + (-9.995)
    is 80.00999999999999; and the float sum of the two payoffs, -19.99, is
    not the difference 80.01 - 100.0, which is -19.989999999999995.  With
    an initial balance of 100.00005, one winning bet leaves 100.8747, while
    100.00005 + 0.8746 is 100.87465. *)
Lemma balance_after_is_not_the_float_sum :
  (exists st r1 r2,
     run default_config empty_file [losing_window; losing_window] = Ok st /\
     trades (file (con st)) = Some [r1; r2] /\
     pnl r2 = Float.decimal (-9995) 3 /\
     balance_after r1 = Float.decimal 90005 3 /\
     balance_after r2 = Float.decimal 8001 2 /\
     Float.add (balance_after r1) (pnl r2) = S754_finite false 5630203221654896 (-46) /\
     balance_after r2 = S754_finite false 5630203221654897 (-46) /\
     Float.eqb (balance_after r2) (Float.add (balance_after r1) (pnl r2)) = false /\
     balance_after r2 <> Float.add (balance_after r1) (pnl r2) /\
     Float.eqb (sum_pnl [r1; r2])
               (Float.sub (balance st) (INITIAL_BALANCE default_config)) = false) /\
  (exists st r,
     run fine_balance_config empty_file [winning_window] = Ok st /\
     trades (file (con st)) = Some [r] /\
     pnl r = Float.decimal 8746 4 /\
     balance_after r = Float.decimal 1008747 4 /\
     Float.add (INITIAL_BALANCE fine_balance_config) (pnl r) = Float.decimal 10087465 5 /\
     Float.eqb (balance_after r)
               (Float.add (INITIAL_BALANCE fine_balance_config) (pnl r)) = false).
Proof.
  split.
  - eexists _, _, _. split; [vm_compute; reflexivity|].
    split; [reflexivity|]. do 6 (split; [reflexivity|]).
    split; [vm_compute; discriminate|reflexivity].
  - eexists _, _. split; [vm_compute; reflexivity|].
    split; [reflexivity|]. repeat split; reflexivity.
Qed.

(** C7 (amended): across every sequence of windows from the start of the
    program, each row carries [round(balance_before + pnl, 4)] for a bet and
    the unchanged balance with [pnl = 0] for a skip, where the balance
    before is the [balance_after] of the previous row (the initial balance
    for the first); the final balance is the initial one moved by this step
    through the whole record sequence. *)
Theorem balance_continuity (cfg : config) (f : database) (feed : list window_feed) :
  runnable cfg = true ->
  exists st0 st old new,
    run_startup cfg f = Ok st0 /\
    run cfg f feed = Ok st /\
    trades (file (con st0)) = Some old /\
    trades (file (con st)) = Some (old ++ new) /\
    length new = length feed /\
    chained (balance st0) new /\
    balance st = fold_left ledger_step new (balance st0) /\
    balance st = default (balance st0) (balance_after <$> last new).
Proof.
  intros Hrun.
  destruct (run_startup_synced cfg f) as (st0 & Hstart & Hs0 & _ & _).
  destruct (market_loop_synced cfg Hrun feed st0 Hs0)
    as (st & old & new & Hloop & _ & Hold & Hnew & Hlen & Hchain & Hfold & Hlast).
  exists st0, st, old, new. unfold run. rewrite Hstart. simpl.
  repeat (split; [assumption || reflexivity|]). exact Hlast.
Qed.

(** A loss, a skip and a win, from a file that did not exist. *)
Lemma balance_continuity_witness :
  runnable default_config = true /\
  exists st0 st old new,
    run_startup default_config empty_file = Ok st0 /\
    run default_config empty_file [losing_window; skipped_window; winning_window] = Ok st /\
    trades (file (con st0)) = Some old /\
    trades (file (con st)) = Some (old ++ new) /\
    length new = length [losing_window; skipped_window; winning_window] /\
    chained (balance st0) new /\
    balance st = fold_left ledger_step new (balance st0) /\
    balance st = default (balance st0) (balance_after <$> last new).
Proof.
  assert (H1 : runnable default_config = true) by reflexivity.
  exact (conj H1 (balance_continuity default_config empty_file
                    [losing_window; skipped_window; winning_window] H1)).
Defined.

(** ** The iteration and the values it samples *)

Section Sampling.

Context {C : Type}.
Variable set_balance_on : C -> float -> result C.
Variable record_trade_on : C -> trade -> result C.

(** With times that can be formatted the check never raises. *)
Lemma market_loop_body_on_formattable
    (cfg : config) (w : window_feed) (c : C) (bal : float) (ws : Q) :
  next_window_start cfg (clock_at_top w) = Ok ws ->
  formattable (clock_at_record w) = true ->
  formattable ws = true ->
  formattable (window_end_epoch cfg ws) = true ->
  market_loop_body_on set_balance_on record_trade_on fmt_ts cfg w c bal
  = market_loop_body_on set_balance_on record_trade_on Ok cfg w c bal.
Proof.
  intros Hws H1 H2 H3. unfold market_loop_body_on, fmt_ts.
  rewrite Hws. cbn [mbind result_bind]. rewrite H1, H2, H3. reflexivity.
Qed.

(** An iteration that ends well is one whose times were formatted. *)
Lemma market_loop_body_on_checked
    (cfg : config) (w : window_feed) (c : C) (bal : float) (r : C * float) :
  market_loop_body_on set_balance_on record_trade_on fmt_ts cfg w c bal = Ok r ->
  market_loop_body_on set_balance_on record_trade_on Ok cfg w c bal = Ok r.
Proof.
  unfold market_loop_body_on, fmt_ts.
  destruct (next_window_start cfg (clock_at_top w)) as [ws|e]; simpl; [|discriminate].
  destruct (decide _ _ _); simpl.
  1,2: destruct (py_div _ _) as [shares|e]; simpl; [|discriminate];
       destruct (set_balance_on c _) as [c1|e]; simpl; [|discriminate].
  all: destruct (formattable (clock_at_record w)); simpl; [|discriminate].
  all: destruct (formattable ws); simpl; [|discriminate].
  all: destruct (formattable (window_end_epoch cfg ws)); simpl; [|discriminate].
  all: intros H; exact H.
Qed.

End Sampling.

(** The iteration from the clock is the iteration on the values it
    samples, when the times it formats can be formatted. *)
Lemma market_loop_iteration_sampled
    (cfg : config) (env : window_env) (st : bot) (latest_price : float) (ws : Q) :
  next_window_start cfg (clock_next_window env) = Ok ws ->
  formattable ws = true ->
  formattable (window_end_epoch cfg ws) = true ->
  formattable (clock_timestamp env) = true ->
  market_loop_iteration cfg env st latest_price
  = st' ← market_loop_body cfg (sample_window_feed cfg env ws latest_price).1 st;
    Ok (st', (sample_window_feed cfg env ws latest_price).2).
Proof.
  intros Hws H1 H2 H3. unfold market_loop_iteration. rewrite Hws. simpl.
  assert (Hline140 :
            (if Qle_bool (ws - clock_wait env) 0 then Ok ws else fmt_ts ws) = Ok ws).
  { destruct (Qle_bool _ 0); [reflexivity|]. unfold fmt_ts. rewrite H1. reflexivity. }
  rewrite Hline140. simpl.
  rewrite (market_loop_body_on_formattable set_balance record_trade cfg
             (sample_window_feed cfg env ws latest_price).1 _ _ ws Hws H3 H1 H2).
  unfold market_loop_body.
  destruct (market_loop_body_on set_balance record_trade Ok cfg _ (con st) (balance st))
    as [[c b]|e]; reflexivity.
Qed.

(** An iteration from the clock that ends well is the iteration on the
    values it samples. *)
Lemma market_loop_iteration_ok
    (cfg : config) (env : window_env) (st st' : bot) (latest_price latest' : float) :
  market_loop_iteration cfg env st latest_price = Ok (st', latest') ->
  exists ws,
    next_window_start cfg (clock_next_window env) = Ok ws /\
    market_loop_body cfg (sample_window_feed cfg env ws latest_price).1 st = Ok st' /\
    latest' = (sample_window_feed cfg env ws latest_price).2.
Proof.
  unfold market_loop_iteration.
  destruct (next_window_start cfg (clock_next_window env)) as [ws|e] eqn:Hws;
    simpl; [|discriminate].
  destruct (if Qle_bool (ws - clock_wait env) 0 then Ok ws else fmt_ts ws) as [x|e];
    simpl; [|discriminate].
  destruct (market_loop_body_on set_balance record_trade fmt_ts cfg _ (con st) (balance st))
    as [[c b]|e] eqn:Hbody; simpl; [|discriminate].
  intros [= <- <-]. exists ws. split; [reflexivity|].
  apply market_loop_body_on_checked in Hbody.
  unfold market_loop_body. rewrite Hbody. split; reflexivity.
Qed.

(** ** The signal offset *)

Lemma sub_same_finite (p : float) :
  Float.is_finite p = true -> Float.sub p p = Float.zero.
Proof.
  destruct p as [s|s| |s m e]; try discriminate; intros _.
  - destruct s; reflexivity.
  - unfold Float.sub, SFsub. rewrite Z.min_id. unfold shl_align.
    rewrite Z.sub_diag. simpl. reflexivity.
Qed.

Lemma decide_same_price (p min_move : float) :
  Float.is_finite p = true ->
  Float.gtb min_move Float.zero = true ->
  decide p p min_move = NONE.
Proof.
  intros Hp Hmin. unfold decide, move. rewrite (sub_same_finite p Hp).
  change (Float.ltb (Float.abs Float.zero) min_move) with (Float.gtb min_move Float.zero).
  rewrite Hmin. reflexivity.
Qed.

(** With SIGNAL_OFFSET >= WINDOW_SECONDS the signal instant of a window
    is not after its start. *)
Lemma signal_time_not_after_start (cfg : config) (ws : Q) :
  SIGNAL_OFFSET cfg >= WINDOW_SECONDS cfg ->
  (signal_time cfg ws <= ws)%Q.
Proof.
  intros Hoff. unfold signal_time, window_end_epoch.
  assert (Hq : (inject_Z (WINDOW_SECONDS cfg) <= inject_Z (SIGNAL_OFFSET cfg))%Q)
    by (rewrite <- Zle_Qle; lia).
  apply Qle_minus_iff. apply Qle_minus_iff in Hq.
  setoid_replace
    (ws + - (ws + inject_Z (WINDOW_SECONDS cfg) - inject_Z (SIGNAL_OFFSET cfg)))%Q
    with (inject_Z (SIGNAL_OFFSET cfg) + - inject_Z (WINDOW_SECONDS cfg))%Q
    using relation Qeq by ring.
  exact Hq.
Qed.

(** With the signal instant at or before the window start there is no
    sleep before the signal once the clock has reached the start. *)
Lemma no_sleep_before_the_signal (cfg : config) (env : window_env) (ws : Q) (latest_price : float) :
  SIGNAL_OFFSET cfg >= WINDOW_SECONDS cfg ->
  (ws <= clock_wait_signal env)%Q ->
  price_at_signal (sample_window_feed cfg env ws latest_price).1
  = price_at_open (sample_window_feed cfg env ws latest_price).1.
Proof.
  intros Hoff Hclock. simpl. unfold after_sleep at 1.
  assert (Hle : (signal_time cfg ws - clock_wait_signal env <= 0)%Q).
  { pose proof (Qle_trans _ _ _ (signal_time_not_after_start cfg ws Hoff) Hclock) as Hst.
    unfold Qminus.
    setoid_replace 0%Q with (clock_wait_signal env + - clock_wait_signal env)%Q
      using relation Qeq by ring.
    apply Qplus_le_l. exact Hst. }
  apply Qle_bool_iff in Hle. rewrite Hle. reflexivity.
Qed.

(** C9 (as stated, refuted): with SIGNAL_OFFSET = WINDOW_SECONDS = 300 the
    start of the program raises nothing and returns the state it returns
    under the default constants, and the loop raises nothing either: it
    reads the signal price with no sleep after the open price, so that the
    move of the feed to 50010 is not seen and the window is recorded as a
    SKIP at 50000, where the default offset of 10 s sees the move on the
    same feed and records a WIN. *)
Lemma degenerate_signal_offset_is_accepted :
  SIGNAL_OFFSET degenerate_config >= WINDOW_SECONDS degenerate_config /\
  run_startup degenerate_config empty_file = Ok fresh_bot /\
  (signal_time degenerate_config 1700000400 == 1700000400)%Q /\
  exists st' latest' row,
    market_loop_iteration degenerate_config degenerate_env fresh_bot (Float.of_Z 49000)
    = Ok (st', latest') /\
    trades (file (con st')) = Some [row] /\
    outcome row = SKIP /\
    btc_open row = Float.of_Z 50000 /\
    btc_at_signal row = Float.of_Z 50000 /\
    balance st' = Float.of_Z 100 /\
    latest' = Float.of_Z 50050 /\
    exists st2 latest2 row2,
      market_loop_iteration default_config (timely_env 50010 50050) fresh_bot
        (Float.of_Z 49000)
      = Ok (st2, latest2) /\
      trades (file (con st2)) = Some [row2] /\
      btc_at_signal row2 = Float.of_Z 50010 /\
      outcome row2 = WIN.
Proof.
  split; [vm_compute; discriminate|]. split; [reflexivity|]. split; [reflexivity|].
  eexists _, _, _. split; [vm_compute; reflexivity|].
  do 6 (split; [reflexivity|]).
  eexists _, _, _. split; [vm_compute; reflexivity|].
  split; [reflexivity|]. split; reflexivity.
Qed.

(** C9 (amended): SIGNAL_OFFSET is never checked against WINDOW_SECONDS,
    and the start of the program succeeds whatever the two constants are.
    When SIGNAL_OFFSET >= WINDOW_SECONDS the signal instant of a window is
    at or before its start: in an iteration whose clock at line 150 has
    reached the window start, no sleep separates the two reads, the signal
    price is the open price and, for a finite price and a positive
    MIN_MOVE_USD, the window is recorded as a SKIP that leaves the balance
    as it was.  No error surfaces at the window. *)
Theorem degenerate_signal_offset_skips
    (cfg : config) (f : database) (env : window_env) (st : bot)
    (latest_price : float) (ws : Q) :
  SIGNAL_OFFSET cfg >= WINDOW_SECONDS cfg ->
  ready (con st) = true ->
  next_window_start cfg (clock_next_window env) = Ok ws ->
  (ws <= clock_wait_signal env)%Q ->
  Float.is_finite (price_at_open (sample_window_feed cfg env ws latest_price).1) = true ->
  Float.gtb (MIN_MOVE_USD cfg) Float.zero = true ->
  formattable ws = true ->
  formattable (window_end_epoch cfg ws) = true ->
  formattable (clock_timestamp env) = true ->
  (exists st0, run_startup cfg f = Ok st0) /\
  (signal_time cfg ws <= ws)%Q /\
  exists st' latest' old row,
    market_loop_iteration cfg env st latest_price = Ok (st', latest') /\
    trades (file (con st)) = Some old /\
    trades (file (con st')) = Some (old ++ [row]) /\
    state (file (con st')) = state (file (con st)) /\
    balance st' = balance st /\
    window_start row = ws /\
    outcome row = SKIP /\
    direction_bet row = NONE /\
    btc_at_signal row = btc_open row /\
    balance_after row = balance st.
Proof.
  intros Hoff Hready Hws Hclock Hfinite Hmin H1 H2 H3.
  split; [destruct (run_startup_synced cfg f) as (st0 & Hst0 & _); exists st0; exact Hst0|].
  split; [exact (signal_time_not_after_start cfg ws Hoff)|].
  destruct (ready_shape _ Hready) as (rows & m & Hcon).
  assert (Hnz : WINDOW_SECONDS cfg <> 0).
  { intros Hz. unfold next_window_start, py_mod in Hws. rewrite Hz in Hws. discriminate Hws. }
  pose proof (no_sleep_before_the_signal cfg env ws latest_price Hoff Hclock) as Hsame.
  set (w := (sample_window_feed cfg env ws latest_price).1) in *.
  assert (Hd : decide (price_at_open w) (price_at_signal w) (MIN_MOVE_USD cfg) = NONE)
    by (rewrite Hsame; apply decide_same_price; assumption).
  destruct (market_loop_body_skip cfg w st rows m Hnz Hcon Hd) as (ws' & Hws' & Hbody).
  change (clock_at_top w) with (clock_next_window env) in Hws'.
  rewrite Hws in Hws'. injection Hws' as <-.
  rewrite (market_loop_iteration_sampled cfg env st latest_price ws Hws H1 H2 H3).
  fold w. rewrite Hbody. simpl.
  eexists _, _, rows, _. split; [reflexivity|]. rewrite Hcon. simpl.
  split; [reflexivity|]. split; [reflexivity|]. split; [reflexivity|].
  split; [reflexivity|]. split; [reflexivity|]. split; [reflexivity|].
  split; [reflexivity|]. split; [exact Hsame|reflexivity].
Qed.

(** The window that opens at 1700000400 with the offset of 300 s. *)
Lemma degenerate_signal_offset_skips_witness :
  SIGNAL_OFFSET degenerate_config >= WINDOW_SECONDS degenerate_config /\
  ready (con fresh_bot) = true /\
  next_window_start degenerate_config (clock_next_window degenerate_env) = Ok 1700000400%Q /\
  (1700000400 <= clock_wait_signal degenerate_env)%Q /\
  Float.is_finite
    (price_at_open
       (sample_window_feed degenerate_config degenerate_env 1700000400 (Float.of_Z 49000)).1)
  = true /\
  Float.gtb (MIN_MOVE_USD degenerate_config) Float.zero = true /\
  formattable 1700000400 = true /\
  formattable (window_end_epoch degenerate_config 1700000400) = true /\
  formattable (clock_timestamp degenerate_env) = true /\
  (exists st0, run_startup degenerate_config empty_file = Ok st0) /\
  (signal_time degenerate_config 1700000400 <= 1700000400)%Q /\
  exists st' latest' old row,
    market_loop_iteration degenerate_config degenerate_env fresh_bot (Float.of_Z 49000)
    = Ok (st', latest') /\
    trades (file (con fresh_bot)) = Some old /\
    trades (file (con st')) = Some (old ++ [row]) /\
    state (file (con st')) = state (file (con fresh_bot)) /\
    balance st' = balance fresh_bot /\
    window_start row = 1700000400%Q /\
    outcome row = SKIP /\
    direction_bet row = NONE /\
    btc_at_signal row = btc_open row /\
    balance_after row = balance fresh_bot.
Proof.
  assert (H1 : SIGNAL_OFFSET degenerate_config >= WINDOW_SECONDS degenerate_config)
    by (vm_compute; discriminate).
  assert (H2 : ready (con fresh_bot) = true) by reflexivity.
  assert (H3 : next_window_start degenerate_config (clock_next_window degenerate_env)
               = Ok 1700000400%Q) by reflexivity.
  assert (H4 : (1700000400 <= clock_wait_signal degenerate_env)%Q)
    by (vm_compute; discriminate).
  assert (H5 : Float.is_finite
                 (price_at_open
                    (sample_window_feed degenerate_config degenerate_env 1700000400
                       (Float.of_Z 49000)).1) = true) by reflexivity.
  assert (H6 : Float.gtb (MIN_MOVE_USD degenerate_config) Float.zero = true) by reflexivity.
  assert (H7 : formattable 1700000400 = true) by reflexivity.
  assert (H8 : formattable (window_end_epoch degenerate_config 1700000400) = true)
    by reflexivity.
  assert (H9 : formattable (clock_timestamp degenerate_env) = true) by reflexivity.
  exact (conj H1 (conj H2 (conj H3 (conj H4 (conj H5 (conj H6 (conj H7 (conj H8 (conj H9
           (degenerate_signal_offset_skips degenerate_config empty_file degenerate_env
              fresh_bot (Float.of_Z 49000) 1700000400 H1 H2 H3 H4 H5 H6 H7 H8 H9)))))))))).
Defined.

(** ** The two commits of a settlement *)

(** The bet branch of the iteration on a process that is stopped after [k]
    database calls. *)
Lemma market_loop_body_stopped_bet
    (cfg : config) (w : window_feed) (st : bot)
    (rows : list trade) (m : gmap string float) (dir : direction) (ws : Q) (k : nat) :
  con st = {| file := {| trades := Some rows; state := Some m |}; transaction := None |} ->
  next_window_start cfg (clock_at_top w) = Ok ws ->
  decide (price_at_open w) (price_at_signal w) (MIN_MOVE_USD cfg) = dir ->
  dir <> NONE ->
  Float.is_zero (ENTRY_PRICE cfg) = false ->
  market_loop_body_stopped k cfg w st
  = Ok (if (k <? 2)%nat then file (con st)
        else if (k <? 4)%nat
             then with_balance (bet_balance cfg w dir (balance st)) (file (con st))
             else with_trade
                    (bet_row cfg w ws dir
                       (settle_outcome dir (price_at_open w) (price_at_close w))
                       (bet_pnl cfg w dir) (bet_balance cfg w dir (balance st)))
                    (with_balance (bet_balance cfg w dir (balance st)) (file (con st)))).
Proof.
  intros Hcon Hws Hd Hdir Hentry.
  unfold market_loop_body_stopped, market_loop_body_on, py_div.
  rewrite Hws, Hd, Hentry, Hcon.
  destruct dir; [| |contradiction].
  all: do 4 (destruct k as [|k]; [reflexivity|]); destruct k; reflexivity.
Qed.

(** C1 (as stated, refuted): a losing bet from the new ledger, in a process
    that is stopped after the second database call of the iteration, that
    is between the commit of [set_balance] and the INSERT of
    [record_trade], leaves a file with the new balance 90.005 and no row:
    neither the file before the settlement nor the file after it. *)
Lemma crash_between_balance_and_record :
  exists st' row d,
    market_loop_body default_config losing_window fresh_bot = Ok st' /\
    trades (file (con st')) = Some [row] /\
    market_loop_body_stopped 2 default_config losing_window fresh_bot = Ok d /\
    stored_balance (file (con fresh_bot)) = Some (Float.of_Z 100) /\
    stored_balance d = Some (Float.decimal 90005 3) /\
    stored_balance (file (con st')) = Some (Float.decimal 90005 3) /\
    trades d = Some [] /\
    d <> file (con fresh_bot) /\
    d <> file (con st').
Proof.
  eexists _, _, _. split; [vm_compute; reflexivity|].
  split; [reflexivity|]. split; [vm_compute; reflexivity|].
  do 4 (split; [reflexivity|]).
  split; intros H.
  - apply (f_equal stored_balance) in H. vm_compute in H. discriminate H.
  - apply (f_equal trades) in H. discriminate H.
Qed.

(** C1 (amended): for every settled bet window the balance update and the
    row are two transactions that the iteration commits one after the
    other, the balance first.  The iteration run in a process that is
    stopped after [k] of its database calls leaves the file unchanged for
    [k < 2], with the new balance and without the row for [2 <= k < 4], and
    with both, the file of the complete iteration, for [k >= 4]; the row is
    never in the file without the balance it carries. *)
Theorem settlement_is_two_commits (cfg : config) (w : window_feed) (st : bot) :
  runnable cfg = true ->
  ready (con st) = true ->
  decide (price_at_open w) (price_at_signal w) (MIN_MOVE_USD cfg) <> NONE ->
  exists st' row,
    market_loop_body cfg w st = Ok st' /\
    balance_after row = balance st' /\
    file (con st') = with_trade row (with_balance (balance st') (file (con st))) /\
    forall k : nat,
      market_loop_body_stopped k cfg w st
      = Ok (if (k <? 2)%nat then file (con st)
            else if (k <? 4)%nat then with_balance (balance st') (file (con st))
            else file (con st')).
Proof.
  intros Hrun Hready Hbet.
  destruct (runnable_inv cfg Hrun) as [Hw Hentry].
  destruct (ready_shape _ Hready) as (rows & m & Hcon).
  destruct (market_loop_body_bet cfg w st rows m Hw Hcon _ eq_refl Hbet Hentry)
    as (ws & Hws & Hbody).
  eexists _, (bet_row cfg w ws _ _ _ _). split; [exact Hbody|]. simpl.
  split; [reflexivity|]. split; [rewrite Hcon; reflexivity|].
  intros k.
  rewrite (market_loop_body_stopped_bet cfg w st rows m _ ws k Hcon Hws eq_refl Hbet Hentry).
  rewrite Hcon. reflexivity.
Qed.

(** A losing bet on the new ledger. *)
Lemma settlement_is_two_commits_witness :
  runnable default_config = true /\
  ready (con fresh_bot) = true /\
  decide (price_at_open losing_window) (price_at_signal losing_window)
         (MIN_MOVE_USD default_config) <> NONE /\
  exists st' row,
    market_loop_body default_config losing_window fresh_bot = Ok st' /\
    balance_after row = balance st' /\
    file (con st') = with_trade row (with_balance (balance st') (file (con fresh_bot))) /\
    forall k : nat,
      market_loop_body_stopped k default_config losing_window fresh_bot
      = Ok (if (k <? 2)%nat then file (con fresh_bot)
            else if (k <? 4)%nat then with_balance (balance st') (file (con fresh_bot))
            else file (con st')).
Proof.
  assert (H1 : runnable default_config = true) by reflexivity.
  assert (H2 : ready (con fresh_bot) = true) by reflexivity.
  assert (H3 : decide (price_at_open losing_window) (price_at_signal losing_window)
                      (MIN_MOVE_USD default_config) <> NONE)
    by (vm_compute; discriminate).
  exact (conj H1 (conj H2 (conj H3
           (settlement_is_two_commits default_config losing_window fresh_bot H1 H2 H3)))).
Defined.

(** * Further properties of the code *)

(** ** The balance and the trade table *)

(** X1: on a connection with both tables, [set_balance] followed by
    [get_balance] returns the value written when the balance row exists;
    when the row is missing the UPDATE changes nothing, the file is left
    as it was, and [get_balance] raises [TypeError]. *)
Theorem set_balance_get_balance (c : connection) (bal : float) :
  ready c = true ->
  exists c',
    set_balance c bal = Ok c' /\
    ready c' = true /\
    match stored_balance (file c) with
    | Some _ => get_balance c' = Ok bal /\ stored_balance (file c') = Some bal
    | None => get_balance c' = Raise TypeError /\ c' = c
    end.
Proof.
  intros Hready. destruct (ready_shape _ Hready) as (rows & m & ->).
  eexists. split; [reflexivity|]. split; [reflexivity|].
  unfold stored_balance, get_balance, select_balance. simpl.
  rewrite lookup_alter_eq.
  destruct (m !! "balance"%string) as [v|] eqn:E; simpl; [split; reflexivity|].
  split; [reflexivity|].
  assert (Hsame : alter (fun _ : float => bal) "balance"%string m = m).
  { apply map_eq. intros key. destruct (String.string_dec key "balance") as [->|Hne].
    - rewrite lookup_alter_eq, E. reflexivity.
    - rewrite lookup_alter_ne by congruence. reflexivity. }
  unfold commit, view. simpl. rewrite Hsame. reflexivity.
Qed.

(** The write of 7.5 on the new ledger. *)
Lemma set_balance_get_balance_witness :
  ready (con fresh_bot) = true /\
  exists c',
    set_balance (con fresh_bot) (Float.decimal 75 1) = Ok c' /\
    ready c' = true /\
    match stored_balance (file (con fresh_bot)) with
    | Some _ => get_balance c' = Ok (Float.decimal 75 1) /\
                stored_balance (file c') = Some (Float.decimal 75 1)
    | None => get_balance c' = Raise TypeError /\ c' = con fresh_bot
    end.
Proof.
  assert (H1 : ready (con fresh_bot) = true) by reflexivity.
  exact (conj H1 (set_balance_get_balance (con fresh_bot) (Float.decimal 75 1) H1)).
Defined.

(** X2: the two writers do not interfere.  [set_balance] leaves every row
    of [trades] and every other key of [state] as they were;
    [record_trade] leaves [state] as it was, keeps the rows already there
    in place and adds the new row after them, so the balance read after it
    is the balance read before. *)
Theorem writers_do_not_interfere (c : connection) (bal : float) (row : trade) :
  ready c = true ->
  exists c1 c2 rows,
    set_balance c bal = Ok c1 /\
    trades (file c1) = trades (file c) /\
    (forall m m1 key, state (file c) = Some m -> state (file c1) = Some m1 ->
                      key <> "balance"%string -> m1 !! key = m !! key) /\
    record_trade c row = Ok c2 /\
    state (file c2) = state (file c) /\
    trades (file c) = Some rows /\
    trades (file c2) = Some (rows ++ [row]) /\
    get_balance c2 = get_balance c.
Proof.
  intros Hready. destruct (ready_shape _ Hready) as (rows & m & ->).
  eexists _, _, rows. split; [reflexivity|]. split; [reflexivity|].
  split.
  - simpl. intros m0 m1 key [= <-] [= <-] Hne.
    rewrite lookup_alter_ne by congruence. reflexivity.
  - repeat split; reflexivity.
Qed.

(** A write of 7.5 and a row on the new ledger. *)
Lemma writers_do_not_interfere_witness :
  ready (con fresh_bot) = true /\
  exists c1 c2 rows,
    set_balance (con fresh_bot) (Float.decimal 75 1) = Ok c1 /\
    trades (file c1) = trades (file (con fresh_bot)) /\
    (forall m m1 key, state (file (con fresh_bot)) = Some m -> state (file c1) = Some m1 ->
                      key <> "balance"%string -> m1 !! key = m !! key) /\
    record_trade (con fresh_bot)
      (skip_row default_config skipped_window 1700000400 (Float.of_Z 100)) = Ok c2 /\
    state (file c2) = state (file (con fresh_bot)) /\
    trades (file (con fresh_bot)) = Some rows /\
    trades (file c2)
    = Some (rows ++ [skip_row default_config skipped_window 1700000400 (Float.of_Z 100)]) /\
    get_balance c2 = get_balance (con fresh_bot).
Proof.
  assert (H1 : ready (con fresh_bot) = true) by reflexivity.
  exact (conj H1 (writers_do_not_interfere (con fresh_bot) (Float.decimal 75 1)
                    (skip_row default_config skipped_window 1700000400 (Float.of_Z 100)) H1)).
Defined.

(** X3: before [init_db] has created the tables, the balance calls raise
    [OperationalError] on a file without [state], and [record_trade] raises
    it on a file without [trades]; after [init_db] none of the three
    raises. *)
Theorem calls_need_the_tables
    (cfg : config) (f : database) (rows : option (list trade))
    (m : option (gmap string float)) (bal : float) (row : trade) :
  get_balance (connect {| trades := rows; state := None |}) = Raise OperationalError /\
  set_balance (connect {| trades := rows; state := None |}) bal = Raise OperationalError /\
  record_trade (connect {| trades := None; state := m |}) row = Raise OperationalError /\
  exists c v c1 c2,
    init_db cfg f = Ok c /\
    get_balance c = Ok v /\
    set_balance c bal = Ok c1 /\
    record_trade c row = Ok c2.
Proof.
  do 3 (split; [reflexivity|]).
  destruct (run_startup_synced cfg f) as (st & Hst & Hs & _).
  unfold run_startup in Hst. rewrite init_db_result in Hst |- *. simpl in Hst.
  destruct (get_balance _) as [v|e] eqn:E; [|discriminate Hst].
  eexists _, v, _, _.
  split; [reflexivity|]. split; [exact E|]. split; reflexivity.
Qed.

(** ** Failures of an iteration *)

Section Failures.

Context {C : Type}.
Variable set_balance_on : C -> float -> result C.
Variable record_trade_on : C -> trade -> result C.
Variable fmt : Q -> result Q.

(** The division that computes the shares comes before every write and
    every formatted time of a bet. *)
Lemma market_loop_body_on_zero_entry
    (cfg : config) (w : window_feed) (c : C) (bal : float) (ws : Q) :
  next_window_start cfg (clock_at_top w) = Ok ws ->
  decide (price_at_open w) (price_at_signal w) (MIN_MOVE_USD cfg) <> NONE ->
  Float.is_zero (ENTRY_PRICE cfg) = true ->
  market_loop_body_on set_balance_on record_trade_on fmt cfg w c bal
  = Raise ZeroDivisionError.
Proof.
  intros Hws Hd Hentry. unfold market_loop_body_on, py_div.
  rewrite Hws, Hentry. cbn [mbind result_bind].
  destruct (decide _ _ _); [reflexivity|reflexivity|contradiction].
Qed.

End Failures.

(** A time that cannot be formatted stops the iteration at its row. *)
Lemma market_loop_body_on_unformattable
    (cfg : config) (w : window_feed) (c : connection) (bal : float) (ws : Q) :
  ready c = true ->
  next_window_start cfg (clock_at_top w) = Ok ws ->
  decide (price_at_open w) (price_at_signal w) (MIN_MOVE_USD cfg) = NONE \/
  Float.is_zero (ENTRY_PRICE cfg) = false ->
  formattable (clock_at_record w) && formattable ws
  && formattable (window_end_epoch cfg ws) = false ->
  market_loop_body_on set_balance record_trade fmt_ts cfg w c bal = Raise ValueError.
Proof.
  intros Hready Hws Hcase Htimes.
  destruct (ready_shape _ Hready) as (rows & m & ->).
  unfold market_loop_body_on, py_div, fmt_ts. rewrite Hws. cbn [mbind result_bind].
  destruct (decide _ _ _) eqn:Hd.
  1,2: destruct Hcase as [Hcase|Hcase]; [discriminate Hcase|];
       rewrite Hcase; cbn [mbind result_bind];
       rewrite set_balance_ready; cbn [mbind result_bind].
  all: destruct (formattable (clock_at_record w)); [|reflexivity].
  all: destruct (formattable ws); [|reflexivity].
  all: destruct (formattable (window_end_epoch cfg ws)); [discriminate Htimes|reflexivity].
Qed.

(** X4: the failures of an iteration of the loop on a connection with
    both tables, in the order of the code.  With WINDOW_SECONDS = 0 the
    modulo of [next_window_start] raises [ZeroDivisionError].  Otherwise,
    for times within 6e16 seconds of the epoch: when the loop has to wait
    for the window and its start cannot be formatted (a year past 9999),
    the log line of line 140 raises [ValueError]; else a bet with a zero
    ENTRY_PRICE raises [ZeroDivisionError] at the division of the shares;
    else a time of the row that cannot be formatted raises [ValueError];
    and in every other case the iteration returns.  A skipped window never
    divides, so it returns with a zero ENTRY_PRICE. *)
Theorem market_loop_iteration_failures
    (cfg : config) (env : window_env) (st : bot) (latest_price : float) :
  ready (con st) = true ->
  (WINDOW_SECONDS cfg = 0 ->
   market_loop_iteration cfg env st latest_price = Raise ZeroDivisionError) /\
  forall ws : Q,
    next_window_start cfg (clock_next_window env) = Ok ws ->
    (Qabs ws <= 60000000000000000)%Q ->
    (Qabs (window_end_epoch cfg ws) <= 60000000000000000)%Q ->
    (Qabs (clock_timestamp env) <= 60000000000000000)%Q ->
    let w := (sample_window_feed cfg env ws latest_price).1 in
    let waits := negb (Qle_bool (ws - clock_wait env) 0) in
    let skips := decide (price_at_open w) (price_at_signal w) (MIN_MOVE_USD cfg) = NONE in
    let row_times :=
      formattable (clock_timestamp env) && formattable ws
      && formattable (window_end_epoch cfg ws) in
    (waits = true -> formattable ws = false ->
     market_loop_iteration cfg env st latest_price = Raise ValueError) /\
    (waits = false \/ formattable ws = true ->
     (~ skips -> Float.is_zero (ENTRY_PRICE cfg) = true ->
      market_loop_iteration cfg env st latest_price = Raise ZeroDivisionError) /\
     (skips \/ Float.is_zero (ENTRY_PRICE cfg) = false -> row_times = false ->
      market_loop_iteration cfg env st latest_price = Raise ValueError) /\
     (skips \/ Float.is_zero (ENTRY_PRICE cfg) = false -> row_times = true ->
      exists st', market_loop_iteration cfg env st latest_price
                  = Ok (st', (sample_window_feed cfg env ws latest_price).2))).
Proof.
  intros Hready. split.
  { intros Hz. unfold market_loop_iteration, next_window_start, py_mod.
    rewrite Hz. reflexivity. }
  intros ws Hws _ _ _ w waits skips row_times.
  assert (Hnz : WINDOW_SECONDS cfg <> 0).
  { intros Hz. unfold next_window_start, py_mod in Hws. rewrite Hz in Hws. discriminate Hws. }
  assert (Htop : next_window_start cfg (clock_at_top w) = Ok ws) by exact Hws.
  split.
  { intros Hwaits Hfmt. apply negb_true_iff in Hwaits.
    unfold market_loop_iteration. rewrite Hws. cbn [mbind result_bind].
    rewrite Hwaits. unfold fmt_ts. rewrite Hfmt. reflexivity. }
  intros Hline.
  assert (Hline140 :
            (if Qle_bool (ws - clock_wait env) 0 then Ok ws else fmt_ts ws) = Ok ws).
  { destruct Hline as [Hwaits|Hfmt].
    - apply negb_false_iff in Hwaits. rewrite Hwaits. reflexivity.
    - unfold fmt_ts. rewrite Hfmt. destruct (Qle_bool _ 0); reflexivity. }
  assert (Hiter :
            market_loop_iteration cfg env st latest_price
            = r ← market_loop_body_on set_balance record_trade fmt_ts cfg w
                  (con st) (balance st);
              Ok ({| con := r.1; balance := r.2 |},
                  (sample_window_feed cfg env ws latest_price).2)).
  { unfold market_loop_iteration. rewrite Hws. cbn [mbind result_bind].
    rewrite Hline140. reflexivity. }
  rewrite Hiter. split; [|split].
  - intros Hbet Hentry.
    rewrite (market_loop_body_on_zero_entry set_balance record_trade fmt_ts
               cfg w (con st) (balance st) ws Htop Hbet Hentry).
    reflexivity.
  - intros Hcase Htimes.
    rewrite (market_loop_body_on_unformattable cfg w (con st) (balance st) ws
               Hready Htop Hcase Htimes).
    reflexivity.
  - intros Hcase Htimes. unfold row_times in Htimes.
    apply andb_prop in Htimes as [Htimes H3]. apply andb_prop in Htimes as [H1 H2].
    rewrite (market_loop_body_on_formattable set_balance record_trade cfg w
               (con st) (balance st) ws Htop H1 H2 H3).
    destruct (ready_shape _ Hready) as (rows & m & Hcon).
    assert (Hbody : exists st', market_loop_body cfg w st = Ok st').
    { destruct (decide (price_at_open w) (price_at_signal w) (MIN_MOVE_USD cfg))
        as [| |] eqn:Hd.
      3: { destruct (market_loop_body_skip cfg w st rows m Hnz Hcon Hd) as (ws' & _ & ->).
           eexists; reflexivity. }
      all: destruct Hcase as [Hcase|Hentry]; [unfold skips in Hcase; congruence|].
      all: destruct (market_loop_body_bet cfg w st rows m Hnz Hcon _ Hd
                       ltac:(discriminate) Hentry) as (ws' & _ & ->).
      all: eexists; reflexivity. }
    destruct Hbody as [st' Hbody]. unfold market_loop_body in Hbody.
    destruct (market_loop_body_on set_balance record_trade Ok cfg w (con st) (balance st))
      as [r|e]; [|discriminate Hbody].
    eexists. reflexivity.
Qed.

(** The first window of a loop with WINDOW_SECONDS = 10^12 begins in the
    year 33658: the iteration raises [ValueError] before it sleeps. *)
Lemma market_loop_iteration_failures_witness :
  ready (con fresh_bot) = true /\
  next_window_start long_window_config (clock_next_window (timely_env 50010 50050))
  = Ok 1000000000000%Q /\
  market_loop_iteration long_window_config (timely_env 50010 50050) fresh_bot
    (Float.of_Z 49000)
  = Raise ValueError.
Proof.
  assert (H1 : ready (con fresh_bot) = true) by reflexivity.
  assert (H2 : next_window_start long_window_config
                 (clock_next_window (timely_env 50010 50050))
               = Ok 1000000000000%Q) by reflexivity.
  assert (H3 : (Qabs 1000000000000 <= 60000000000000000)%Q) by (vm_compute; discriminate).
  assert (H4 : (Qabs (window_end_epoch long_window_config 1000000000000)
                <= 60000000000000000)%Q) by (vm_compute; discriminate).
  assert (H5 : (Qabs (clock_timestamp (timely_env 50010 50050)) <= 60000000000000000)%Q)
    by (vm_compute; discriminate).
  split; [exact H1|]. split; [exact H2|].
  refine (proj1 (proj2 (market_loop_iteration_failures long_window_config
                          (timely_env 50010 50050) fresh_bot (Float.of_Z 49000) H1)
                   1000000000000%Q H2 H3 H4 H5) _ _); reflexivity.
Defined.

(** ** The outcome of a bet *)

Lemma SFcompare_antisym (x y : float) :
  SFcompare y x = option_map CompOpp (SFcompare x y).
Proof.
  destruct x as [sx|sx| |sx mx ex], y as [sy|sy| |sy my ey]; simpl;
    try destruct sx; try destruct sy; simpl; try reflexivity.
  - rewrite (Z.compare_antisym ex ey).
    destruct (ex ?= ey)%Z; simpl; try reflexivity.
    rewrite CompOpp_involutive.
    rewrite (Pos.compare_cont_antisym my mx Eq). reflexivity.
  - rewrite (Z.compare_antisym ex ey).
    destruct (ex ?= ey)%Z; simpl; try reflexivity.
    rewrite (Pos.compare_cont_antisym mx my Eq). reflexivity.
Qed.

Lemma gtb_not_eqb (x y : float) :
  Float.gtb x y = true -> Float.eqb x y = false.
Proof.
  unfold Float.gtb, Float.ltb, Float.eqb, SFltb, SFeqb.
  rewrite (SFcompare_antisym x y).
  destruct (SFcompare x y) as [[| |]|]; simpl; congruence.
Qed.

(** X5: a bet UP wins exactly when the close is strictly above the open; a
    bet DOWN wins exactly when the close is neither above nor equal to the
    open; the two directions never both win, and away from a flat close one
    of them does. *)
Theorem settle_outcome_wins (btc_open btc_close : float) :
  (settle_outcome UP btc_open btc_close = WIN <-> Float.gtb btc_close btc_open = true) /\
  (settle_outcome DOWN btc_open btc_close = WIN <->
     Float.gtb btc_close btc_open = false /\ Float.eqb btc_close btc_open = false) /\
  ~ (settle_outcome UP btc_open btc_close = WIN /\
     settle_outcome DOWN btc_open btc_close = WIN) /\
  (Float.eqb btc_close btc_open = false ->
     settle_outcome UP btc_open btc_close = WIN \/
     settle_outcome DOWN btc_open btc_close = WIN).
Proof.
  pose proof (gtb_not_eqb btc_close btc_open) as Hgt.
  unfold settle_outcome.
  destruct (Float.gtb btc_close btc_open) eqn:G;
    destruct (Float.eqb btc_close btc_open) eqn:E; simpl;
    try (specialize (Hgt eq_refl); discriminate Hgt).
  all: repeat split; try tauto; try discriminate; intuition discriminate.
Qed.

(** Scenario 1 and a losing close. *)
Lemma settle_outcome_wins_witness :
  settle_outcome UP (Float.of_Z 50000) (Float.of_Z 50050) = WIN /\
  settle_outcome DOWN (Float.of_Z 50000) (Float.of_Z 49990) = WIN /\
  (settle_outcome UP (Float.of_Z 50000) (Float.of_Z 49990) = WIN \/
   settle_outcome DOWN (Float.of_Z 50000) (Float.of_Z 49990) = WIN).
Proof.
  split; [|split].
  - apply (proj1 (settle_outcome_wins (Float.of_Z 50000) (Float.of_Z 50050))). reflexivity.
  - apply (proj1 (proj2 (settle_outcome_wins (Float.of_Z 50000) (Float.of_Z 49990)))).
    split; reflexivity.
  - apply (proj2 (proj2 (proj2 (settle_outcome_wins (Float.of_Z 50000) (Float.of_Z 49990))))).
    reflexivity.
Defined.

(** X6: a NaN price is never skipped.  With a NaN at the open or at the
    signal the decision is DOWN for every threshold, and with a NaN at the
    open or at the close a bet DOWN is settled as a WIN and a bet UP as a
    LOSS. *)
Theorem nan_price_bets_down (p min_move : float) :
  decide p S754_nan min_move = DOWN /\
  decide S754_nan p min_move = DOWN /\
  settle_outcome DOWN p S754_nan = WIN /\
  settle_outcome DOWN S754_nan p = WIN /\
  settle_outcome UP p S754_nan = LOSS /\
  settle_outcome UP S754_nan p = LOSS.
Proof.
  repeat split; destruct p as [s|s| |s m e]; reflexivity.
Qed.

(** ** The windows the loop takes *)

Section Windows.

Variable cfg : config.
Hypothesis window_positive : 0 < WINDOW_SECONDS cfg.

(** The start computed at [now] is the grid point after the floor. *)
Lemma next_window_start_value (now : Q) :
  exists r,
    next_window_start cfg now = Ok r /\
    (r == inject_Z ((Qfloor (now / inject_Z (WINDOW_SECONDS cfg)) + 1) * WINDOW_SECONDS cfg))%Q /\
    (now < r)%Q.
Proof.
  pose proof (floor_window_bounds cfg window_positive now) as [_ Hhi].
  eexists. split; [|split].
  - unfold next_window_start. rewrite (py_mod_window cfg window_positive). reflexivity.
  - rewrite inject_Z_mult, inject_Z_plus. ring.
  - setoid_replace
      (now - (now - inject_Z (WINDOW_SECONDS cfg)
                    * inject_Z (Qfloor (now / inject_Z (WINDOW_SECONDS cfg))))
           + inject_Z (WINDOW_SECONDS cfg))%Q
      with (inject_Z (WINDOW_SECONDS cfg)
              * inject_Z (Qfloor (now / inject_Z (WINDOW_SECONDS cfg)))
            + inject_Z (WINDOW_SECONDS cfg))%Q
      using relation Qeq by ring.
    exact Hhi.
Qed.

End Windows.

(** The start computed at [now], seen from a grid point [j * W]: past the
    point it is at least one window later, before the point it is not
    later than the point. *)
Lemma next_window_start_from_grid (cfg : config) (j : Z) (now r : Q) :
  0 < WINDOW_SECONDS cfg ->
  next_window_start cfg now = Ok r ->
  ((inject_Z (j * WINDOW_SECONDS cfg) <= now)%Q ->
   (inject_Z (j * WINDOW_SECONDS cfg) + inject_Z (WINDOW_SECONDS cfg) <= r)%Q) /\
  ((now < inject_Z (j * WINDOW_SECONDS cfg))%Q ->
   (r <= inject_Z (j * WINDOW_SECONDS cfg))%Q).
Proof.
  intros Hpos Hr.
  destruct (next_window_start_value cfg Hpos now) as (r' & Hr' & Hgrid & Hlt).
  rewrite Hr in Hr'. injection Hr' as <-.
  pose proof (floor_window_bounds cfg Hpos now) as [Hlo _].
  set (f := Qfloor (now / inject_Z (WINDOW_SECONDS cfg))) in *.
  split; intros Hnow.
  - assert (Hjf : j * WINDOW_SECONDS cfg < (f + 1) * WINDOW_SECONDS cfg).
    { rewrite Zlt_Qlt, <- Hgrid. eapply Qle_lt_trans; [exact Hnow|exact Hlt]. }
    assert (Hj : j + 1 <= f + 1) by nia.
    rewrite Hgrid, <- inject_Z_plus, <- Zle_Qle. nia.
  - assert (Hfj : WINDOW_SECONDS cfg * f < j * WINDOW_SECONDS cfg).
    { rewrite Zlt_Qlt, inject_Z_mult. eapply Qle_lt_trans; [exact Hlo|exact Hnow]. }
    assert (Hj : f + 1 <= j) by nia.
    rewrite Hgrid, <- Zle_Qle. nia.
Qed.

(** An iteration that returns has appended one row, with the window
    computed from the clock at its top. *)
Lemma market_loop_iteration_row
    (cfg : config) (env : window_env) (st st' : bot) (latest_price latest' : float) :
  ready (con st) = true ->
  market_loop_iteration cfg env st latest_price = Ok (st', latest') ->
  exists old row,
    trades (file (con st)) = Some old /\
    trades (file (con st')) = Some (old ++ [row]) /\
    ready (con st') = true /\
    window_of cfg env row.
Proof.
  intros Hready Hiter.
  destruct (market_loop_iteration_ok cfg env st st' latest_price latest' Hiter)
    as (ws & Hws & Hbody & _).
  destruct (ready_shape _ Hready) as (rows & m & Hcon).
  assert (Hnz : WINDOW_SECONDS cfg <> 0).
  { intros Hz. unfold next_window_start, py_mod in Hws. rewrite Hz in Hws. discriminate Hws. }
  set (w := (sample_window_feed cfg env ws latest_price).1) in *.
  assert (Htop : next_window_start cfg (clock_at_top w) = Ok ws) by exact Hws.
  exists rows. rewrite Hcon. simpl.
  destruct (decide (price_at_open w) (price_at_signal w) (MIN_MOVE_USD cfg)) as [| |] eqn:Hd.
  3: { destruct (market_loop_body_skip cfg w st rows m Hnz Hcon Hd) as (ws' & Hws' & Hb).
       rewrite Htop in Hws'. injection Hws' as <-.
       rewrite Hb in Hbody. injection Hbody as <-. simpl.
       eexists. split; [reflexivity|]. split; [reflexivity|]. split; [reflexivity|].
       split; [exact Hws|reflexivity]. }
  all: destruct (Float.is_zero (ENTRY_PRICE cfg)) eqn:Hentry.
  1,3: unfold market_loop_body in Hbody;
       rewrite (market_loop_body_on_zero_entry set_balance record_trade Ok cfg w
                  (con st) (balance st) ws Htop ltac:(rewrite Hd; discriminate) Hentry)
         in Hbody;
       discriminate Hbody.
  all: destruct (market_loop_body_bet cfg w st rows m Hnz Hcon _ Hd
                   ltac:(discriminate) Hentry) as (ws' & Hws' & Hb).
  all: rewrite Htop in Hws'; injection Hws' as <-.
  all: rewrite Hb in Hbody; injection Hbody as <-; simpl.
  all: eexists; split; [reflexivity|]; split; [reflexivity|]; split; [reflexivity|].
  all: split; [exact Hws|reflexivity].
Qed.

(** The rows of the first iterations, one per iteration that returns. *)
Lemma market_loop_timed_rows (cfg : config) (envs : list window_env) :
  forall (st st' : bot) (latest_price latest' : float),
    ready (con st) = true ->
    market_loop_timed cfg envs st latest_price = Ok (st', latest') ->
    exists old rows,
      trades (file (con st)) = Some old /\
      trades (file (con st')) = Some (old ++ rows) /\
      Forall2 (window_of cfg) envs rows.
Proof.
  induction envs as [|env rest IH]; intros st st' latest_price latest' Hready Hrun.
  - simpl in Hrun. injection Hrun as <- <-.
    destruct (ready_shape _ Hready) as (rows & m & Hcon).
    exists rows, []. rewrite Hcon. simpl. rewrite app_nil_r.
    split; [reflexivity|]. split; [reflexivity|constructor].
  - simpl in Hrun.
    destruct (market_loop_iteration cfg env st latest_price) as [[st1 l1]|e] eqn:Hiter;
      [|discriminate Hrun].
    cbn [mbind result_bind fst snd] in Hrun.
    destruct (market_loop_iteration_row cfg env st st1 latest_price l1 Hready Hiter)
      as (old & row & Hold & Hnew & Hready1 & Hrow).
    destruct (IH st1 st' l1 latest' Hready1 Hrun) as (old1 & rows & Hold1 & Hnew1 & Hrows).
    rewrite Hnew in Hold1. injection Hold1 as <-.
    exists old, (row :: rows).
    split; [exact Hold|]. split.
    + rewrite Hnew1, <- app_assoc. reflexivity.
    + constructor; assumption.
Qed.

(** X7: the windows of two consecutive iterations of the loop, for any
    clock.  The loop appends one row per iteration, and the window of a
    row begins after the clock read at the top of its iteration.  When that
    clock has reached the end of the window of the row before, the window
    that begins at that end is left out: the next one begins at least one
    whole window later.  When the loop is back at its top before that end
    (no sleep, or an early wake), the next window is the adjacent one, and
    with a clock before the start of the window of the row before it is
    not a later window than that one. *)
Theorem consecutive_windows
    (cfg : config) (envs : list window_env) (st st' : bot) (latest_price latest' : float) :
  0 < WINDOW_SECONDS cfg ->
  ready (con st) = true ->
  market_loop_timed cfg envs st latest_price = Ok (st', latest') ->
  exists old rows,
    trades (file (con st)) = Some old /\
    trades (file (con st')) = Some (old ++ rows) /\
    length rows = length envs /\
    forall (i : nat) (r1 r2 : trade) (env2 : window_env),
      rows !! i = Some r1 ->
      rows !! S i = Some r2 ->
      envs !! S i = Some env2 ->
      (clock_next_window env2 < window_start r2)%Q /\
      ((window_end r1 <= clock_next_window env2)%Q ->
       (window_end r1 + inject_Z (WINDOW_SECONDS cfg) <= window_start r2)%Q) /\
      ((window_start r1 <= clock_next_window env2)%Q ->
       (clock_next_window env2 < window_end r1)%Q ->
       (window_start r2 == window_end r1)%Q) /\
      ((clock_next_window env2 < window_start r1)%Q ->
       (window_start r2 <= window_start r1)%Q).
Proof.
  intros Hpos Hready Hrun.
  destruct (market_loop_timed_rows cfg envs st st' latest_price latest' Hready Hrun)
    as (old & rows & Hold & Hnew & Hrows).
  exists old, rows. split; [exact Hold|]. split; [exact Hnew|].
  split; [symmetry; eapply Forall2_length; exact Hrows|].
  intros i r1 r2 env2 Hr1 Hr2 Henv2.
  destruct (Forall2_lookup_r _ _ _ _ _ Hrows Hr1) as (env1 & _ & Hw1 & He1).
  destruct (Forall2_lookup_lr _ _ _ _ _ _ Hrows Henv2 Hr2) as [Hw2 _].
  destruct (next_window_start_value cfg Hpos (clock_next_window env1))
    as (ws1 & Hws1 & Hgrid1 & _).
  rewrite Hw1 in Hws1. injection Hws1 as <-.
  destruct (next_window_start_value cfg Hpos (clock_next_window env2))
    as (ws2 & Hws2 & _ & Hlt2).
  rewrite Hw2 in Hws2. injection Hws2 as <-.
  set (j := Qfloor (clock_next_window env1 / inject_Z (WINDOW_SECONDS cfg)) + 1) in *.
  assert (Hend : (window_end r1 == inject_Z ((j + 1) * WINDOW_SECONDS cfg))%Q).
  { rewrite He1. unfold window_end_epoch. rewrite Hgrid1, <- inject_Z_plus.
    apply inject_Z_injective. lia. }
  destruct (next_window_start_from_grid cfg j _ _ Hpos Hw2) as [Hpast Hbefore].
  destruct (next_window_start_from_grid cfg (j + 1) _ _ Hpos Hw2) as [Hpast' Hbefore'].
  split; [exact Hlt2|]. split; [|split].
  - intros Hnow. rewrite Hend in Hnow |- *. exact (Hpast' Hnow).
  - intros Hlo Hhi. rewrite Hgrid1 in Hlo. rewrite Hend in Hhi |- *.
    apply Qle_antisym; [exact (Hbefore' Hhi)|].
    eapply Qle_trans; [|exact (Hpast Hlo)].
    rewrite <- inject_Z_plus, <- Zle_Qle. lia.
  - intros Hnow. rewrite Hgrid1 in Hnow |- *. exact (Hbefore Hnow).
Qed.

(** The window that begins at 1700000400 and the iteration after it, back
    at the top at 1700000700: the rows are those of the windows that begin
    at 1700000400 and at 1700001000. *)
Lemma consecutive_windows_witness :
  0 < WINDOW_SECONDS default_config /\
  ready (con fresh_bot) = true /\
  exists st' latest',
    market_loop_timed default_config [timely_env 50010 50050; following_env]
      fresh_bot (Float.of_Z 49000) = Ok (st', latest') /\
    exists old rows,
      trades (file (con fresh_bot)) = Some old /\
      trades (file (con st')) = Some (old ++ rows) /\
      length rows = length [timely_env 50010 50050; following_env] /\
      forall (i : nat) (r1 r2 : trade) (env2 : window_env),
        rows !! i = Some r1 ->
        rows !! S i = Some r2 ->
        [timely_env 50010 50050; following_env] !! S i = Some env2 ->
        (clock_next_window env2 < window_start r2)%Q /\
        ((window_end r1 <= clock_next_window env2)%Q ->
         (window_end r1 + inject_Z (WINDOW_SECONDS default_config) <= window_start r2)%Q) /\
        ((window_start r1 <= clock_next_window env2)%Q ->
         (clock_next_window env2 < window_end r1)%Q ->
         (window_start r2 == window_end r1)%Q) /\
        ((clock_next_window env2 < window_start r1)%Q ->
         (window_start r2 <= window_start r1)%Q).
Proof.
  assert (H1 : 0 < WINDOW_SECONDS default_config) by reflexivity.
  assert (H2 : ready (con fresh_bot) = true) by reflexivity.
  split; [exact H1|]. split; [exact H2|].
  assert (H3 : exists r, market_loop_timed default_config
                           [timely_env 50010 50050; following_env]
                           fresh_bot (Float.of_Z 49000) = Ok r)
    by (vm_compute; eexists; reflexivity).
  destruct H3 as [[st' latest'] H3].
  exists st', latest'. split; [exact H3|].
  exact (consecutive_windows default_config [timely_env 50010 50050; following_env]
           fresh_bot st' (Float.of_Z 49000) latest' H1 H2 H3).
Defined.

(** ** The rows of a run *)

Section Rows.

Variable cfg : config.
Hypothesis cfg_runnable : runnable cfg = true.
Hypothesis window_positive : 0 < WINDOW_SECONDS cfg.

Lemma market_loop_body_row_shape (w : window_feed) (st : bot) :
  synced st ->
  exists st' old row,
    market_loop_body cfg w st = Ok st' /\
    synced st' /\
    trades (file (con st)) = Some old /\
    trades (file (con st')) = Some (old ++ [row]) /\
    row_shape cfg row.
Proof.
  intros Hs.
  destruct (market_loop_body_synced cfg cfg_runnable w st Hs)
    as (st' & old & row & Hbody & Hs' & Hold & Hnew & _).
  exists st', old, row. do 4 (split; [assumption|]).
  destruct (synced_shape st Hs) as (rows & m & Hcon & _).
  destruct (runnable_inv cfg cfg_runnable) as [Hw Hentry].
  destruct (next_window_start_value cfg window_positive (clock_at_top w))
    as (r & Hr & Hgrid & _).
  assert (Hrow : forall st2 row2,
             market_loop_body cfg w st = Ok st2 ->
             trades (file (con st2)) = Some (rows ++ [row2]) ->
             row_shape cfg row2).
  { intros st2 row2 Hb2 Ht2.
    destruct (decide (price_at_open w) (price_at_signal w) (MIN_MOVE_USD cfg))
      as [| |] eqn:Hd.
    3: { destruct (market_loop_body_skip cfg w st rows m Hw Hcon Hd) as (ws & Hws & Hb).
         rewrite Hb in Hb2. injection Hb2 as <-. simpl in Ht2.
         injection Ht2 as Ht2. apply app_inj_tail in Ht2 as [_ <-].
         rewrite Hr in Hws. injection Hws as <-.
         split; [reflexivity|]. split; [eexists; exact Hgrid|].
         simpl. repeat split; try reflexivity. symmetry. exact Hd. }
    all: destruct (market_loop_body_bet cfg w st rows m Hw Hcon _ Hd
                     ltac:(discriminate) Hentry) as (ws & Hws & Hb).
    all: rewrite Hb in Hb2; injection Hb2 as <-; simpl in Ht2.
    all: injection Ht2 as Ht2; apply app_inj_tail in Ht2 as [_ <-].
    all: rewrite Hr in Hws; injection Hws as <-.
    all: split; [reflexivity|]; split; [eexists; exact Hgrid|].
    all: simpl; unfold bet_pnl, win_payoff, loss_payoff.
    all: match goal with
         | |- context [settle_outcome ?d ?o ?c] =>
             destruct (settle_outcome d o c) eqn:Hout
         end.
    all: try (exfalso;
              match type of Hout with
              | settle_outcome ?d ?o ?c = SKIP =>
                  destruct (settle_outcome_cases d o c) as [H|H];
                  rewrite H in Hout; discriminate Hout
              end).
    all: simpl; repeat split; auto. }
  rewrite Hcon in Hold. simpl in Hold. injection Hold as <-.
  exact (Hrow st' row Hbody Hnew).
Qed.

Lemma market_loop_row_shapes (feed : list window_feed) (st : bot) :
  synced st ->
  exists st' old new,
    market_loop cfg feed st = Ok st' /\
    trades (file (con st)) = Some old /\
    trades (file (con st')) = Some (old ++ new) /\
    Forall (row_shape cfg) new.
Proof.
  revert st. induction feed as [|w feed IH]; intros st Hs.
  - destruct (synced_shape st Hs) as (rows & m & Hcon & _).
    exists st, rows, []. simpl. rewrite app_nil_r, Hcon. simpl.
    repeat split; try reflexivity. constructor.
  - destruct (market_loop_body_row_shape w st Hs)
      as (st1 & old & row & Hbody & Hs1 & Hold & Hnew & Hshape).
    destruct (IH st1 Hs1) as (st' & old1 & new & Hloop & Hold1 & Hnew1 & Hall).
    rewrite Hnew in Hold1. injection Hold1 as <-.
    exists st', old, (row :: new). simpl. rewrite Hbody. simpl.
    split; [exact Hloop|]. split; [exact Hold|].
    split; [rewrite Hnew1, <- app_assoc; reflexivity|].
    constructor; assumption.
Qed.

End Rows.

(** X8: every row a run appends has the shape of its outcome.  Its window
    is one cell of the WINDOW_SECONDS grid; a SKIP row has direction NONE,
    entry price 0, payoff 0 and the signal price as close; a WIN or LOSS
    row has direction UP or DOWN, the configured entry price, the one
    winning or the one losing payoff of the configuration, and an outcome
    that is the settlement of its own open and close; and the direction is
    the decision on its own open and signal prices.  Rows already in the
    table stay in place. *)
Theorem run_row_shapes (cfg : config) (f : database) (feed : list window_feed) :
  runnable cfg = true ->
  0 < WINDOW_SECONDS cfg ->
  exists st new,
    run cfg f feed = Ok st /\
    trades (file (con st)) = Some (default [] (trades f) ++ new) /\
    Forall (row_shape cfg) new.
Proof.
  intros Hrun Hpos.
  destruct (run_startup_synced cfg f) as (st0 & Hstart & Hs0 & _ & Htrades).
  destruct (market_loop_row_shapes cfg Hrun Hpos feed st0 Hs0)
    as (st & old & new & Hloop & Hold & Hnew & Hall).
  exists st, new. unfold run. rewrite Hstart. simpl.
  split; [exact Hloop|]. split; [|exact Hall].
  rewrite Htrades in Hold. injection Hold as <-. exact Hnew.
Qed.

(** A loss, a skip and a win, from a file that did not exist. *)
Lemma run_row_shapes_witness :
  runnable default_config = true /\
  0 < WINDOW_SECONDS default_config /\
  exists st new,
    run default_config empty_file [losing_window; skipped_window; winning_window] = Ok st /\
    trades (file (con st)) = Some (default [] (trades empty_file) ++ new) /\
    Forall (row_shape default_config) new.
Proof.
  assert (H1 : runnable default_config = true) by reflexivity.
  assert (H2 : 0 < WINDOW_SECONDS default_config) by reflexivity.
  exact (conj H1 (conj H2
           (run_row_shapes default_config empty_file
              [losing_window; skipped_window; winning_window] H1 H2))).
Defined.

(** ** Stopping and starting again *)

Lemma run_startup_on_synced (cfg : config) (st : bot) :
  synced st -> run_startup cfg (crash (con st)) = Ok st.
Proof.
  intros Hs. destruct (synced_shape st Hs) as (rows & m & Hcon & Hbal).
  destruct st as [c b]. simpl in *. subst c.
  unfold run_startup, crash. rewrite init_db_result. simpl.
  unfold stored_balance. simpl. rewrite Hbal. simpl.
  unfold get_balance, select_balance. simpl. rewrite Hbal. reflexivity.
Qed.

(** X9: a run can be stopped after any number of complete windows and
    started again.  The start on the file it left, under any
    configuration, returns the very state the run ended in (the stored
    balance, not INITIAL_BALANCE), and the windows that follow give what
    one uninterrupted run gives. *)
Theorem restart_resumes
    (cfg cfg' : config) (f : database) (feed1 feed2 : list window_feed) :
  runnable cfg = true ->
  exists st1,
    run cfg f feed1 = Ok st1 /\
    run_startup cfg' (crash (con st1)) = Ok st1 /\
    run cfg f (feed1 ++ feed2) = run cfg (crash (con st1)) feed2.
Proof.
  intros Hrun.
  destruct (run_startup_synced cfg f) as (st0 & Hstart & Hs0 & _).
  destruct (market_loop_synced cfg Hrun feed1 st0 Hs0) as (st1 & old & new & Hloop & Hs1 & _).
  exists st1. unfold run. rewrite Hstart. simpl.
  split; [exact Hloop|]. split; [apply run_startup_on_synced; exact Hs1|].
  rewrite market_loop_app, Hloop, (run_startup_on_synced cfg st1 Hs1). reflexivity.
Qed.

(** A loss, a stop, then a skip and a win, with another initial balance
    configured at the restart. *)
Lemma restart_resumes_witness :
  runnable default_config = true /\
  exists st1,
    run default_config empty_file [losing_window] = Ok st1 /\
    run_startup fine_balance_config (crash (con st1)) = Ok st1 /\
    run default_config empty_file ([losing_window] ++ [skipped_window; winning_window])
    = run default_config (crash (con st1)) [skipped_window; winning_window].
Proof.
  assert (H1 : runnable default_config = true) by reflexivity.
  exact (conj H1 (restart_resumes default_config fine_balance_config empty_file
                    [losing_window] [skipped_window; winning_window] H1)).
Defined.

(** ** The statistics of the dashboard *)

Section Statistics.

Variable sqlite_sum : list float -> float.

Lemma count_outcome_nonneg (o : settlement) (rows : list trade) :
  0 <= Dashboard.count_outcome o rows.
Proof. unfold Dashboard.count_outcome. lia. Qed.

Lemma count_outcome_app (o : settlement) (rows1 rows2 : list trade) :
  Dashboard.count_outcome o (rows1 ++ rows2)
  = Dashboard.count_outcome o rows1 + Dashboard.count_outcome o rows2.
Proof.
  unfold Dashboard.count_outcome. rewrite List.filter_app, length_app. lia.
Qed.

Lemma count_outcome_total (rows : list trade) :
  Z.of_nat (length rows)
  = Dashboard.count_outcome WIN rows + Dashboard.count_outcome LOSS rows
    + Dashboard.count_outcome SKIP rows.
Proof.
  unfold Dashboard.count_outcome. induction rows as [|row rows IH]; [reflexivity|].
  simpl. destruct (outcome row); simpl; lia.
Qed.

Lemma get_stats_ready (rows : list trade) (m : gmap string float) :
  Dashboard.get_stats sqlite_sum
    {| file := {| trades := Some rows; state := Some m |}; transaction := None |}
  = Ok {| Dashboard.balance := default (Float.of_Z 100) (m !! "balance"%string);
          Dashboard.total := Z.of_nat (length rows);
          Dashboard.wins := Dashboard.count_outcome WIN rows;
          Dashboard.losses := Dashboard.count_outcome LOSS rows;
          Dashboard.skips := Dashboard.count_outcome SKIP rows;
          Dashboard.bets :=
            Dashboard.count_outcome WIN rows + Dashboard.count_outcome LOSS rows;
          Dashboard.win_rate :=
            (if 0 <? Dashboard.count_outcome WIN rows + Dashboard.count_outcome LOSS rows
             then Float.mul
                    (Float.div
                       (Dashboard.int_operand (Dashboard.count_outcome WIN rows))
                       (Dashboard.int_operand
                          (Dashboard.count_outcome WIN rows
                           + Dashboard.count_outcome LOSS rows)))
                    (Float.of_Z 100)
             else Float.of_Z 0);
          Dashboard.total_pnl :=
            match rows with
            | [] => Float.of_Z 0
            | _ => sqlite_sum (map pnl rows)
            end |}.
Proof.
  unfold Dashboard.get_stats, select_balance. simpl.
  destruct (0 <? _) eqn:Hbets; simpl.
  - unfold Dashboard.int_truediv.
    apply Z.ltb_lt in Hbets.
    destruct (Z.eqb_spec (Dashboard.count_outcome WIN rows
                          + Dashboard.count_outcome LOSS rows) 0) as [E|_]; [lia|].
    simpl. destruct (m !! "balance"%string); reflexivity.
  - destruct (m !! "balance"%string); reflexivity.
Qed.

End Statistics.

(** X10: on a file with both tables [get_stats] never raises, whatever the
    rows: the rate is only divided when there is a bet, and it is 0
    otherwise.  The total is the number of rows and is the sum of the wins,
    losses and skips; the bets are the wins plus the losses; the balance is
    the stored one, and 100.0 when the row is missing; the total payoff of
    an empty table is 0. *)
Theorem get_stats_counts (sqlite_sum : list float -> float) (c : connection) :
  ready c = true ->
  exists s rows,
    Dashboard.get_stats sqlite_sum c = Ok s /\
    trades (file c) = Some rows /\
    Dashboard.balance s = default (Float.of_Z 100) (stored_balance (file c)) /\
    Dashboard.total s = Z.of_nat (length rows) /\
    Dashboard.total s = Dashboard.wins s + Dashboard.losses s + Dashboard.skips s /\
    Dashboard.bets s = Dashboard.wins s + Dashboard.losses s /\
    0 <= Dashboard.wins s <= Dashboard.bets s /\
    Dashboard.bets s <= Dashboard.total s /\
    0 <= Dashboard.skips s /\
    (if 0 <? Dashboard.bets s
     then Dashboard.win_rate s
          = Float.mul (Float.div (Dashboard.int_operand (Dashboard.wins s))
                                 (Dashboard.int_operand (Dashboard.bets s)))
                      (Float.of_Z 100)
     else Dashboard.win_rate s = Float.of_Z 0) /\
    (if 0 <? Dashboard.total s
     then Dashboard.total_pnl s = sqlite_sum (map pnl rows)
     else Dashboard.total_pnl s = Float.of_Z 0).
Proof.
  intros Hready. destruct (ready_shape _ Hready) as (rows & m & ->).
  eexists _, rows. split; [apply get_stats_ready|]. simpl.
  pose proof (count_outcome_total rows) as Htot.
  pose proof (count_outcome_nonneg WIN rows).
  pose proof (count_outcome_nonneg LOSS rows).
  pose proof (count_outcome_nonneg SKIP rows).
  split; [reflexivity|]. split; [reflexivity|]. split; [reflexivity|].
  split; [exact Htot|]. split; [reflexivity|].
  split; [lia|]. split; [lia|]. split; [lia|].
  split; [destruct (0 <? _); reflexivity|].
  destruct rows; reflexivity.
Qed.

(** The statistics of the new ledger. *)
Lemma get_stats_counts_witness :
  ready (con fresh_bot) = true /\
  exists s rows,
    Dashboard.get_stats (fun _ => Float.of_Z 0) (con fresh_bot) = Ok s /\
    trades (file (con fresh_bot)) = Some rows /\
    Dashboard.balance s = default (Float.of_Z 100) (stored_balance (file (con fresh_bot))) /\
    Dashboard.total s = Z.of_nat (length rows) /\
    Dashboard.total s = Dashboard.wins s + Dashboard.losses s + Dashboard.skips s /\
    Dashboard.bets s = Dashboard.wins s + Dashboard.losses s /\
    0 <= Dashboard.wins s <= Dashboard.bets s /\
    Dashboard.bets s <= Dashboard.total s /\
    0 <= Dashboard.skips s /\
    (if 0 <? Dashboard.bets s
     then Dashboard.win_rate s
          = Float.mul (Float.div (Dashboard.int_operand (Dashboard.wins s))
                                 (Dashboard.int_operand (Dashboard.bets s)))
                      (Float.of_Z 100)
     else Dashboard.win_rate s = Float.of_Z 0) /\
    (if 0 <? Dashboard.total s
     then Dashboard.total_pnl s = (fun _ => Float.of_Z 0) (map pnl rows)
     else Dashboard.total_pnl s = Float.of_Z 0).
Proof.
  assert (H1 : ready (con fresh_bot) = true) by reflexivity.
  exact (conj H1 (get_stats_counts (fun _ => Float.of_Z 0) (con fresh_bot) H1)).
Defined.

(** ** The dashboard after a run *)

Section Outcomes.

Variable cfg : config.
Hypothesis cfg_runnable : runnable cfg = true.

Lemma market_loop_body_outcome (w : window_feed) (st : bot) :
  synced st ->
  exists st' old row,
    market_loop_body cfg w st = Ok st' /\
    synced st' /\
    trades (file (con st)) = Some old /\
    trades (file (con st')) = Some (old ++ [row]) /\
    settlement_eqb (outcome row) SKIP = skipped cfg w.
Proof.
  intros Hs. destruct (synced_shape st Hs) as (rows & m & Hcon & Hbal).
  destruct (runnable_inv cfg cfg_runnable) as [Hw Hentry].
  destruct (market_loop_body_synced cfg cfg_runnable w st Hs)
    as (st' & old & row & Hbody & Hs' & Hold & Hnew & _).
  exists st', old, row. do 4 (split; [assumption|]).
  rewrite Hcon in Hold. simpl in Hold. injection Hold as <-.
  unfold skipped.
  destruct (decide (price_at_open w) (price_at_signal w) (MIN_MOVE_USD cfg))
    as [| |] eqn:Hd.
  3: { destruct (market_loop_body_skip cfg w st rows m Hw Hcon Hd) as (ws & _ & Hb).
       rewrite Hb in Hbody. injection Hbody as <-. simpl in Hnew.
       injection Hnew as Hnew. apply app_inj_tail in Hnew as [_ <-]. reflexivity. }
  all: destruct (market_loop_body_bet cfg w st rows m Hw Hcon _ Hd
                   ltac:(discriminate) Hentry) as (ws & _ & Hb).
  all: rewrite Hb in Hbody; injection Hbody as <-; simpl in Hnew.
  all: injection Hnew as Hnew; apply app_inj_tail in Hnew as [_ <-]; simpl.
  all: match goal with
       | |- context [settle_outcome ?d ?o ?c] =>
           destruct (settle_outcome_cases d o c) as [-> | ->]
       end; reflexivity.
Qed.

Lemma market_loop_outcomes (feed : list window_feed) (st : bot) :
  synced st ->
  exists st' old new,
    market_loop cfg feed st = Ok st' /\
    synced st' /\
    trades (file (con st)) = Some old /\
    trades (file (con st')) = Some (old ++ new) /\
    Dashboard.count_outcome SKIP new = count_skipped cfg feed /\
    Dashboard.count_outcome WIN new + Dashboard.count_outcome LOSS new
    = count_bet cfg feed.
Proof.
  revert st. induction feed as [|w feed IH]; intros st Hs.
  - destruct (synced_shape st Hs) as (rows & m & Hcon & _).
    exists st, rows, []. simpl. rewrite app_nil_r, Hcon. simpl.
    split; [reflexivity|]. split; [exact Hs|]. repeat split; reflexivity.
  - destruct (market_loop_body_outcome w st Hs)
      as (st1 & old & row & Hbody & Hs1 & Hold & Hnew & Hout).
    destruct (IH st1 Hs1)
      as (st' & old1 & new & Hloop & Hs' & Hold1 & Hnew1 & Hskip & Hbet).
    rewrite Hnew in Hold1. injection Hold1 as <-.
    exists st', old, (row :: new). simpl. rewrite Hbody. simpl.
    split; [exact Hloop|]. split; [exact Hs'|]. split; [exact Hold|].
    split; [rewrite Hnew1, <- app_assoc; reflexivity|].
    unfold Dashboard.count_outcome, count_skipped, count_bet in *. simpl.
    rewrite <- Hout.
    destruct (outcome row); simpl; lia.
Qed.

End Outcomes.

(** X11: the dashboard shows what the bot did.  Read on the file a run
    left, [get_stats] returns the balance the bot holds in memory; its
    total has grown by one per window, its skips by the number of windows
    the decision skipped and its bets by the number of the others. *)
Theorem get_stats_after_run
    (sqlite_sum : list float -> float)
    (cfg : config) (f : database) (feed : list window_feed) :
  runnable cfg = true ->
  exists st0 s0 st s,
    run_startup cfg f = Ok st0 /\
    Dashboard.get_stats sqlite_sum (connect (crash (con st0))) = Ok s0 /\
    run cfg f feed = Ok st /\
    Dashboard.get_stats sqlite_sum (connect (crash (con st))) = Ok s /\
    Dashboard.balance s = balance st /\
    Dashboard.total s = Dashboard.total s0 + Z.of_nat (length feed) /\
    Dashboard.skips s = Dashboard.skips s0 + count_skipped cfg feed /\
    Dashboard.bets s = Dashboard.bets s0 + count_bet cfg feed.
Proof.
  intros Hrun.
  destruct (run_startup_synced cfg f) as (st0 & Hstart & Hs0 & _).
  destruct (market_loop_outcomes cfg Hrun feed st0 Hs0)
    as (st & old & new & Hloop & Hs & Hold & Hnew & Hskip & Hbet).
  destruct (synced_shape st0 Hs0) as (rows0 & m0 & Hcon0 & Hbal0).
  destruct (synced_shape st Hs) as (rows & m & Hcon & Hbal).
  rewrite Hcon0 in Hold. rewrite Hcon in Hnew. simpl in Hold, Hnew.
  injection Hold as <-. injection Hnew as ->.
  eexists st0, _, st, _. unfold run. rewrite Hstart. simpl.
  split; [reflexivity|].
  split; [rewrite Hcon0; apply get_stats_ready|].
  split; [exact Hloop|].
  split; [rewrite Hcon; apply get_stats_ready|]. simpl.
  split; [rewrite Hbal; reflexivity|].
  rewrite !count_outcome_app, length_app.
  pose proof (count_outcome_total new) as Htot.
  assert (Hlen : Z.of_nat (length new) = Z.of_nat (length feed)).
  { rewrite Htot, Hskip, Hbet. unfold count_skipped, count_bet.
    clear. induction feed as [|w feed IH]; [reflexivity|].
    simpl. destruct (skipped cfg w); simpl; lia. }
  split; [lia|]. split; lia.
Qed.

(** A loss, a skip and a win, from a file that did not exist. *)
Lemma get_stats_after_run_witness :
  runnable default_config = true /\
  exists st0 s0 st s,
    run_startup default_config empty_file = Ok st0 /\
    Dashboard.get_stats (fun _ => Float.of_Z 0) (connect (crash (con st0))) = Ok s0 /\
    run default_config empty_file [losing_window; skipped_window; winning_window] = Ok st /\
    Dashboard.get_stats (fun _ => Float.of_Z 0) (connect (crash (con st))) = Ok s /\
    Dashboard.balance s = balance st /\
    Dashboard.total s
    = Dashboard.total s0
      + Z.of_nat (length [losing_window; skipped_window; winning_window]) /\
    Dashboard.skips s
    = Dashboard.skips s0
      + count_skipped default_config [losing_window; skipped_window; winning_window] /\
    Dashboard.bets s
    = Dashboard.bets s0
      + count_bet default_config [losing_window; skipped_window; winning_window].
Proof.
  assert (H1 : runnable default_config = true) by reflexivity.
  exact (conj H1 (get_stats_after_run (fun _ => Float.of_Z 0) default_config empty_file
                    [losing_window; skipped_window; winning_window] H1)).
Defined.

(** ** The recent trades of the dashboard *)

(** X12: [get_recent_trades] returns the newest rows first: at most [n] of
    them, all of them for a negative [n], and its [i]-th element is the
    [i]-th row from the end of the table.  Right after [record_trade] its
    first element is the row just written (and it is empty for [n = 0]). *)
Theorem get_recent_trades_newest_first (c : connection) (n : Z) (row : trade) :
  ready c = true ->
  exists rows l c2 l2,
    trades (file c) = Some rows /\
    Dashboard.get_recent_trades c n = Ok l /\
    length l = (if n <? 0 then length rows else Nat.min (Z.to_nat n) (length rows)) /\
    (forall i : nat, (i < length l)%nat ->
       l !! i = Dashboard.recent_columns <$> rows !! (length rows - S i)%nat) /\
    record_trade c row = Ok c2 /\
    Dashboard.get_recent_trades c2 n = Ok l2 /\
    (if n =? 0 then l2 = [] else head l2 = Some (Dashboard.recent_columns row)).
Proof.
  intros Hready. destruct (ready_shape _ Hready) as (rows & m & ->).
  eexists rows, _, _, _. split; [reflexivity|]. split; [reflexivity|].
  split; [|split; [|split; [reflexivity|split; [reflexivity|]]]].
  - rewrite length_fmap. destruct (n <? 0); [apply length_reverse|].
    rewrite length_take, length_reverse. reflexivity.
  - intros i Hi. rewrite length_fmap in Hi. rewrite list_lookup_fmap. f_equal.
    destruct (n <? 0).
    + rewrite length_reverse in Hi. apply reverse_lookup. exact Hi.
    + rewrite length_take, length_reverse in Hi.
      rewrite lookup_take_lt by lia. apply reverse_lookup. lia.
  - simpl. rewrite reverse_app. simpl.
    destruct (Z.eqb_spec n 0) as [->|Hn]; [reflexivity|].
    destruct (n <? 0) eqn:Hneg; [reflexivity|].
    apply Z.ltb_ge in Hneg.
    destruct (Z.to_nat n) as [|k] eqn:Hk; [lia|reflexivity].
Qed.

(** The last 20 rows of the new ledger and of the ledger with one row. *)
Lemma get_recent_trades_newest_first_witness :
  ready (con fresh_bot) = true /\
  exists rows l c2 l2,
    trades (file (con fresh_bot)) = Some rows /\
    Dashboard.get_recent_trades (con fresh_bot) 20 = Ok l /\
    length l = (if 20 <? 0 then length rows else Nat.min (Z.to_nat 20) (length rows)) /\
    (forall i : nat, (i < length l)%nat ->
       l !! i = Dashboard.recent_columns <$> rows !! (length rows - S i)%nat) /\
    record_trade (con fresh_bot)
      (skip_row default_config skipped_window 1700000400 (Float.of_Z 100)) = Ok c2 /\
    Dashboard.get_recent_trades c2 20 = Ok l2 /\
    (if 20 =? 0 then l2 = []
     else head l2
          = Some (Dashboard.recent_columns
                    (skip_row default_config skipped_window 1700000400 (Float.of_Z 100)))).
Proof.
  assert (H1 : ready (con fresh_bot) = true) by reflexivity.
  exact (conj H1 (get_recent_trades_newest_first (con fresh_bot) 20
                    (skip_row default_config skipped_window 1700000400 (Float.of_Z 100)) H1)).
Defined.

(** ** The window status of the dashboard *)

Lemma py_int_bounds (x : Q) (n : Z) :
  (0 <= x)%Q -> (x < inject_Z n)%Q -> 0 <= Dashboard.py_int x < n.
Proof.
  destruct x as [a b]. unfold Qle, Qlt, Dashboard.py_int. simpl.
  intros Ha Hn. rewrite Z.mul_1_r in Ha, Hn.
  rewrite Z.quot_div_nonneg by lia. split.
  - apply Z.div_pos; lia.
  - apply Z.div_lt_upper_bound; lia.
Qed.

Lemma Qlt_by_difference (a b c d : Q) :
  (a < b)%Q -> (b - a == d - c)%Q -> (c < d)%Q.
Proof.
  intros H E. apply Qlt_minus_iff. apply Qlt_minus_iff in H.
  unfold Qminus in E. rewrite <- E. exact H.
Qed.

Lemma Qle_by_difference (a b c d : Q) :
  (a <= b)%Q -> (b - a == d - c)%Q -> (c <= d)%Q.
Proof.
  intros H E. apply Qle_minus_iff. apply Qle_minus_iff in H.
  unfold Qminus in E. rewrite <- E. exact H.
Qed.

(** The status at [now], with the remainder [e] of [now] on the 300 s
    grid. *)
Lemma build_window_status_value (now : Q) :
  exists (s : Dashboard.window_status) (k : Z) (e : Q),
    Dashboard.build_window_status now = Ok s /\
    (0 <= e)%Q /\ (e < 300)%Q /\
    (now == inject_Z (k * 300) + e)%Q /\
    (Dashboard.window_start s == inject_Z (k * 300))%Q /\
    (Dashboard.window_end s == inject_Z (k * 300) + 300)%Q /\
    (Dashboard.elapsed s == e)%Q /\
    (Dashboard.remaining s == 300 - e)%Q /\
    Dashboard.filled s = Dashboard.py_int (Dashboard.elapsed s / 300 * 30)%Q /\
    length (Dashboard.bar s)
    = (Z.to_nat (Dashboard.filled s) + Z.to_nat (30 - Dashboard.filled s))%nat /\
    Dashboard.signal_zone s = Qle_bool (Dashboard.remaining s) 10.
Proof.
  assert (Hpos : 0 < WINDOW_SECONDS default_config) by reflexivity.
  pose proof (floor_window_bounds default_config Hpos now) as [Hlo Hhi].
  pose proof (py_mod_window default_config Hpos now) as Hmod.
  change (WINDOW_SECONDS default_config) with 300 in *.
  set (fl := Qfloor (now / inject_Z 300)) in *.
  eexists _, fl, (now - inject_Z 300 * inject_Z fl)%Q.
  split; [unfold Dashboard.build_window_status;
          change Dashboard.WINDOW_SECONDS with 300; rewrite Hmod; reflexivity|].
  simpl.
  split; [apply (Qle_by_difference _ _ _ _ Hlo); ring|].
  split; [apply (Qlt_by_difference _ _ _ _ Hhi); ring|].
  split; [rewrite inject_Z_mult; ring|].
  split; [rewrite inject_Z_mult; ring|].
  split; [rewrite inject_Z_mult; ring|].
  split; [ring|]. split; [ring|].
  split; [reflexivity|].
  split; [rewrite length_app, !repeat_length; reflexivity|reflexivity].
Qed.

(** X13: for every time the window status is well formed.  The window
    shown is the cell of the 300 s grid that holds [now]; the elapsed time
    is in [0, 300), the remaining time in (0, 300], and they add up to
    300; the bar has between 0 and 29 full cells and always 30 cells in
    all; the signal zone is flagged exactly when at most 10 s remain. *)
Theorem build_window_status_bounds (now : Q) :
  exists (s : Dashboard.window_status) (k : Z),
    Dashboard.build_window_status now = Ok s /\
    (Dashboard.window_start s == inject_Z (k * 300))%Q /\
    (Dashboard.window_end s == Dashboard.window_start s + 300)%Q /\
    (Dashboard.window_start s <= now)%Q /\ (now < Dashboard.window_end s)%Q /\
    (0 <= Dashboard.elapsed s)%Q /\ (Dashboard.elapsed s < 300)%Q /\
    (0 < Dashboard.remaining s)%Q /\ (Dashboard.remaining s <= 300)%Q /\
    (Dashboard.elapsed s + Dashboard.remaining s == 300)%Q /\
    0 <= Dashboard.filled s <= 29 /\
    length (Dashboard.bar s) = 30%nat /\
    (Dashboard.signal_zone s = true <-> (Dashboard.remaining s <= 10)%Q).
Proof.
  destruct (build_window_status_value now)
    as (s & k & e & Hs & He0 & He1 & Hnow & Hstart & Hend & Hel & Hrem & Hfill & Hbar & Hzone).
  exists s, k. split; [exact Hs|]. split; [exact Hstart|].
  split; [rewrite Hend, Hstart; reflexivity|].
  split; [rewrite Hstart, Hnow; apply (Qle_by_difference _ _ _ _ He0); ring|].
  split; [rewrite Hend, Hnow; apply (Qlt_by_difference _ _ _ _ He1); ring|].
  split; [rewrite Hel; exact He0|]. split; [rewrite Hel; exact He1|].
  split; [rewrite Hrem; apply (Qlt_by_difference _ _ _ _ He1); ring|].
  split; [rewrite Hrem; apply (Qle_by_difference _ _ _ _ He0); ring|].
  split; [rewrite Hel, Hrem; ring|].
  assert (Hf : 0 <= Dashboard.filled s < 30).
  { rewrite Hfill. apply py_int_bounds.
    - rewrite Hel. apply Qmult_le_0_compat; [|discriminate].
      apply Qle_shift_div_l; [reflexivity|]. rewrite Qmult_0_l. exact He0.
    - rewrite Hel. change (inject_Z 30) with (1 * 30)%Q.
      apply Qmult_lt_r; [reflexivity|].
      apply Qlt_shift_div_r; [reflexivity|]. rewrite Qmult_1_l. exact He1. }
  split; [lia|]. split; [rewrite Hbar; lia|].
  rewrite Hzone. apply Qle_bool_iff.
Qed.

(** X14: the dashboard and the bot agree on the schedule.  Under a
    configuration with the window of 300 s and the signal offset of 10 s
    the dashboard uses, the end of the window shown at [now] is the start
    the bot computes at [now], and the signal zone is flagged exactly from
    the signal instant of the window shown. *)
Theorem dashboard_follows_bot_schedule (cfg : config) (now : Q) :
  WINDOW_SECONDS cfg = 300 ->
  SIGNAL_OFFSET cfg = 10 ->
  exists (s : Dashboard.window_status) (r : Q),
    Dashboard.build_window_status now = Ok s /\
    next_window_start cfg now = Ok r /\
    (r == Dashboard.window_end s)%Q /\
    (Dashboard.signal_zone s = true <->
       (signal_time cfg (Dashboard.window_start s) <= now)%Q).
Proof.
  intros HW Hoff.
  destruct (build_window_status_value now)
    as (s & k & e & Hs & He0 & He1 & Hnow & Hstart & Hend & Hel & Hrem & _ & _ & Hzone).
  assert (Hs' := Hs). unfold Dashboard.build_window_status in Hs'.
  change Dashboard.WINDOW_SECONDS with 300 in Hs'.
  destruct (py_mod now 300) as [m|x] eqn:Hmod; [|discriminate Hs'].
  simpl in Hs'. injection Hs' as <-. simpl in *.
  eexists. eexists. split; [exact Hs|].
  split; [unfold next_window_start; rewrite HW, Hmod; reflexivity|]. simpl.
  split; [reflexivity|].
  rewrite Qle_bool_iff. unfold signal_time, window_end_epoch.
  rewrite HW, Hoff. split; intros H.
  - apply (Qle_by_difference _ _ _ _ H). unfold inject_Z. ring.
  - apply (Qle_by_difference _ _ _ _ H). unfold inject_Z. ring.
Qed.

(** The status and the next start at 1700000123 under the default
    constants. *)
Lemma dashboard_follows_bot_schedule_witness :
  WINDOW_SECONDS default_config = 300 /\
  SIGNAL_OFFSET default_config = 10 /\
  exists (s : Dashboard.window_status) (r : Q),
    Dashboard.build_window_status 1700000123 = Ok s /\
    next_window_start default_config 1700000123 = Ok r /\
    (r == Dashboard.window_end s)%Q /\
    (Dashboard.signal_zone s = true <->
       (signal_time default_config (Dashboard.window_start s) <= 1700000123)%Q).
Proof.
  assert (H1 : WINDOW_SECONDS default_config = 300) by reflexivity.
  assert (H2 : SIGNAL_OFFSET default_config = 10) by reflexivity.
  exact (conj H1 (conj H2 (dashboard_follows_bot_schedule default_config 1700000123 H1 H2))).
Defined.

(** ** Interrupted calls *)

(** X15: each writer on its own is all or nothing.  A process stopped
    after [k] of the two database calls of [record_trade], or of
    [set_balance], leaves the file as it was for [k < 2] (the uncommitted
    statement is lost) and with the complete change otherwise; so the row
    of a skipped window is either absent or whole. *)
Theorem single_writer_is_atomic (c : connection) (bal : float) (row : trade) (k : nat) :
  ready c = true ->
  interrupted k (record_trade_script row) c
  = Ok (if (k <? 2)%nat then file c else with_trade row (file c)) /\
  interrupted k (set_balance_script bal) c
  = Ok (if (k <? 2)%nat then file c else with_balance bal (file c)).
Proof.
  intros Hready. destruct (ready_shape _ Hready) as (rows & m & ->).
  split; do 2 (destruct k as [|k]; [reflexivity|]); destruct k; reflexivity.
Qed.

(** The row of a skipped window on the new ledger, stopped before the
    commit. *)
Lemma single_writer_is_atomic_witness :
  ready (con fresh_bot) = true /\
  interrupted 1
    (record_trade_script (skip_row default_config skipped_window 1700000400 (Float.of_Z 100)))
    (con fresh_bot)
  = Ok (if (1 <? 2)%nat then file (con fresh_bot)
        else with_trade (skip_row default_config skipped_window 1700000400 (Float.of_Z 100))
                        (file (con fresh_bot))) /\
  interrupted 1 (set_balance_script (Float.decimal 75 1)) (con fresh_bot)
  = Ok (if (1 <? 2)%nat then file (con fresh_bot)
        else with_balance (Float.decimal 75 1) (file (con fresh_bot))).
Proof.
  assert (H1 : ready (con fresh_bot) = true) by reflexivity.
  exact (conj H1 (single_writer_is_atomic (con fresh_bot) (Float.decimal 75 1)
                    (skip_row default_config skipped_window 1700000400 (Float.of_Z 100))
                    1%nat H1)).
Defined.

(** X16: [init_db] can be interrupted and run again.  Whether the process
    stopped after the first CREATE TABLE, after the second, or after the
    INSERT of the balance that was not yet committed (which leaves the
    file of the second), [init_db] on the file it left returns what
    [init_db] on the original file returns. *)
Theorem init_db_after_interruption (cfg : config) (f : database) :
  exists c1 c2,
    execute CREATE_TABLE_trades (connect f) = Ok c1 /\
    execute CREATE_TABLE_state c1 = Ok c2 /\
    match execute (INSERT_state_balance (INITIAL_BALANCE cfg)) c2 with
    | Ok c3 => crash c3 = crash c2 /\ stored_balance f = None
    | Raise e => e = IntegrityError /\ is_Some (stored_balance f)
    end /\
    init_db cfg (crash c1) = init_db cfg f /\
    init_db cfg (crash c2) = init_db cfg f.
Proof.
  eexists _, _. split; [reflexivity|]. split; [reflexivity|].
  rewrite !init_db_result. unfold crash, stored_balance. simpl.
  destruct f as [rows [m|]]; simpl.
  - unfold execute. simpl.
    destruct (m !! "balance"%string) as [v|] eqn:E; simpl.
    + split; [split; [reflexivity|eexists; reflexivity]|]. split; reflexivity.
    + split; [split; reflexivity|]. split; reflexivity.
  - unfold execute. simpl. rewrite lookup_empty. simpl.
    split; [split; reflexivity|]. split; reflexivity.
Qed.

(** The status at 1700000123. *)
Lemma build_window_status_bounds_witness :
  exists (s : Dashboard.window_status) (k : Z),
    Dashboard.build_window_status 1700000123 = Ok s /\
    (Dashboard.window_start s == inject_Z (k * 300))%Q /\
    (Dashboard.window_end s == Dashboard.window_start s + 300)%Q /\
    (Dashboard.window_start s <= 1700000123)%Q /\
    (1700000123 < Dashboard.window_end s)%Q /\
    (0 <= Dashboard.elapsed s)%Q /\ (Dashboard.elapsed s < 300)%Q /\
    (0 < Dashboard.remaining s)%Q /\ (Dashboard.remaining s <= 300)%Q /\
    (Dashboard.elapsed s + Dashboard.remaining s == 300)%Q /\
    0 <= Dashboard.filled s <= 29 /\
    length (Dashboard.bar s) = 30%nat /\
    (Dashboard.signal_zone s = true <-> (Dashboard.remaining s <= 10)%Q).
Proof. exact (build_window_status_bounds 1700000123). Defined.
